(** * SolanaTradeMaster-Bot: wallet custody, trade execution and token listing

    A shallow embedding of [app.py].  Each Python class is a module of
    the same name; each method is a function of the same name.  Python
    exceptions are values of [exn]; a call that may raise returns a
    [result]; a coroutine is a function of the state in [M].  What the
    program gets from its libraries (cryptography's Fernet, redis,
    aiohttp, solana, the Python built-ins) is kept in the classes
    [FernetLib], [PyRuntime] and [World], which the embedded code is
    parameterised by. *)

From Stdlib Require Import ZArith QArith Lia Ascii Strings.Byte.
From stdpp Require Import gmap strings list sorting pretty.

Open Scope Z_scope.

(** ** Python values shared by all classes *)

Module Py.

(** A Python [str] is kept as its text in UTF-8 ([string]); [bytes] is
    [list byte]. *)

(** The exceptions the program can raise, by their Python class. *)
Inductive exn : Type :=
| NameError (name : string)
| KeyError (key : string)
| IndexError
| TypeError
| ValueError
| AttributeError (attr : string)
| UnicodeDecodeError
| InvalidToken
| DataError
| ClientError (detail : string)
| RPCException (detail : string).

Inductive result (A : Type) : Type :=
| Ok (a : A)
| Raise (e : exn).
Arguments Ok {A} a.
Arguments Raise {A} e.

#[export] Instance result_ret : MRet result := λ A a, Ok a.

#[export] Instance result_bind : MBind result := λ A B k r,
  match r with
  | Ok a => k a
  | Raise e => Raise e
  end.

Definition of_option {A} (o : option A) (e : exn) : result A :=
  match o with
  | Some a => Ok a
  | None => Raise e
  end.

(** *** [bytes.decode()] and [str.encode()] (UTF-8, strict) *)

Definition is_ascii (b : byte) : bool := (Byte.to_N b <? 128)%N.

Definition is_cont (b : byte) : bool :=
  ((128 <=? Byte.to_N b) && (Byte.to_N b <=? 191))%N.

Definition between (lo hi : N) (b : byte) : bool :=
  ((lo <=? Byte.to_N b) && (Byte.to_N b <=? hi))%N.

(** Well-formed UTF-8: shortest form only, no surrogates, at most U+10FFFF. *)
Fixpoint utf8_valid (bs : list byte) : bool :=
  match bs with
  | [] => true
  | b :: rest =>
      if is_ascii b then utf8_valid rest
      else if between 194 223 b then
        match rest with
        | c1 :: r => is_cont c1 && utf8_valid r
        | _ => false
        end
      else if between 224 239 b then
        match rest with
        | c1 :: c2 :: r =>
            (if between 224 224 b then between 160 191 c1
             else if between 237 237 b then between 128 159 c1
             else is_cont c1)
            && is_cont c2 && utf8_valid r
        | _ => false
        end
      else if between 240 244 b then
        match rest with
        | c1 :: c2 :: c3 :: r =>
            (if between 240 240 b then between 144 191 c1
             else if between 244 244 b then between 128 143 c1
             else is_cont c1)
            && is_cont c2 && is_cont c3 && utf8_valid r
        | _ => false
        end
      else false
  end.

Definition decode (b : list byte) : result string :=
  if utf8_valid b then Ok (String.string_of_list_byte b) else Raise UnicodeDecodeError.

Definition encode (s : string) : list byte := String.list_byte_of_string s.

End Py.
Import Py.

(** ** cryptography.fernet *)

(** What [Fernet.encrypt] draws on each call: a fresh IV and the clock. *)
Record nonce : Type := { iv : list byte; now : Z }.

Class FernetLib : Type := {
  fernet : Type;
  (** [Fernet(key)]: [None] stands for the [ValueError] raised on a key
      that is not 32 url-safe base64-encoded bytes. *)
  Fernet_new : list byte → option fernet;
  fernet_encrypt : fernet → nonce → list byte → list byte;
  (** [Fernet.decrypt(token)] without [ttl]: [None] stands for [InvalidToken]. *)
  fernet_decrypt : fernet → list byte → option (list byte)
}.

(** The documented contract of Fernet: tokens are url-safe base64 text
    and decryption inverts encryption. *)
Record FernetContract (L : FernetLib) : Prop := {
  fernet_roundtrip : ∀ (f : fernet) n m,
    fernet_decrypt f (fernet_encrypt f n m) = Some m;
  fernet_token_ascii : ∀ (f : fernet) n m,
    forallb is_ascii (fernet_encrypt f n m) = true
}.



Module SecurityManager.
Section WithFernet.
Context {L : FernetLib}.

Record t : Type := { fernet_ : fernet }.

Definition init (encryption_key : string) : result t :=
  f ← of_option (Fernet_new (encode encryption_key)) ValueError;
  Ok {| fernet_ := f |}.

Definition encrypt_private_key (self : t) (n : nonce) (private_key : list byte)
  : result string :=
  decode (fernet_encrypt (fernet_ self) n private_key).

Definition decrypt_private_key (self : t) (encrypted_key : string)
  : result (list byte) :=
  of_option (fernet_decrypt (fernet_ self) (encode encrypted_key)) InvalidToken.

End WithFernet.
End SecurityManager.


(** ** Values the handlers pass around *)

(** A value that is an [int] on one path and a [str] on another
    ([page] in [list_tokens_command]). *)
Inductive pyval : Type :=
| VInt (n : Z)
| VStr (s : string).

(** A decoded JSON document, as [response.json()] returns it. *)
#[warnings="-register-all"]
Inductive json : Type :=
| JNull
| JBool (b : bool)
| JInt (n : Z)
| JStr (s : string)
| JList (l : list json)
| JDict (d : gmap string json).

Record Keypair : Type := { public_key : list byte; secret_key : list byte }.

Record Transaction : Type := {
  recent_blockhash : list byte;
  message : list byte;
  signatures : list (list byte)
}.

Record InlineKeyboardButton : Type := { text : string; callback_data : string }.

Record Update : Type := {
  effective_user : option Z;
  has_message : bool;
  callback_query : option string
}.

Record CallbackContext : Type := { args : option (list string) }.

(** The update of a command: the same sender and chat, no button pressed. *)
Definition as_command (update : Update) : Update :=
  {| effective_user := effective_user update;
     has_message := has_message update;
     callback_query := None |}.

(** What the program does to the outside, in order. *)
Inductive event : Type :=
| EvSleep (delay : Q)
| EvGet (url : string) (params : gmap string json)
| EvPost (url : string) (body : json)
| EvSign (wallet : Keypair) (tx : Transaction)
| EvSendRaw (raw : list byte)
| EvReply (text : string) (reply_markup : option (list (list InlineKeyboardButton))).

(** ** The program's state and its effects *)

(** The Redis server holds hashes under string keys; [trace] records the
    events so far, oldest first. *)
Record state : Type := {
  redis : gmap string (gmap string string);
  trace : list event
}.

(** A coroutine: it runs from a state and either returns or raises,
    leaving the state it reached. *)
Definition M (A : Type) : Type := state → result A * state.

#[export] Instance M_ret : MRet M := λ A a st, (Ok a, st).

#[export] Instance M_bind : MBind M := λ A B k m st,
  match m st with
  | (Ok a, st') => k a st'
  | (Raise e, st') => (Raise e, st')
  end.

Definition raise {A} (e : exn) : M A := λ st, (Raise e, st).

Definition lift {A} (r : result A) : M A := λ st, (r, st).

(** The state after the events [evs] have been added to the trace. *)
Definition logged (st : state) (evs : list event) : state :=
  {| redis := redis st; trace := trace st ++ evs |}.

Definition emit (ev : event) : M () := λ st, (Ok (), logged st [ev]).

Definition read_redis : M (gmap string (gmap string string)) :=
  λ st, (Ok (redis st), st).

Definition write_redis (r : gmap string (gmap string string)) : M () :=
  λ st, (Ok (), {| redis := r; trace := trace st |}).

(** *** Module globals

    The names [app.py] binds at module level: its imports (lines 1-15),
    its four classes and the objects it builds from the configuration. *)
Definition module_globals : list string :=
  [ "asyncio"; "base64"; "json"; "Dict"; "List"; "Optional"; "datetime";
    "aiohttp"; "Fernet"; "AsyncClient"; "Keypair"; "Transaction";
    "TransactionInstruction"; "Update"; "InlineKeyboardButton";
    "InlineKeyboardMarkup"; "Application"; "CommandHandler";
    "CallbackContext"; "CallbackQueryHandler"; "Redis";
    "SecurityManager"; "TokenManager"; "TradingManager"; "SolanaTelegramBot";
    "config"; "redis_client"; "security_manager"; "token_manager";
    "trading_manager"; "bot" ].

(** Evaluating a global name: [NameError] when the module never bound it. *)
Definition load_global (name : string) : M () :=
  if existsb (String.eqb name) module_globals then mret () else raise (NameError name).

(** *** Built-ins and library calls the program relies on *)

Class PyRuntime : Type := {
  float : Type;
  (** [float(s)] on a [str]; [None] is [ValueError]. *)
  float_of_str : string → option float;
  float_of_int : Z → float;
  (** [a < b] on floats. *)
  float_lt : float → float → bool;
  (** [f"{x:.2f}"]. *)
  format_2f : float → string;
  (** [int(s)] on a [str]; [None] is [ValueError]. *)
  int_of_str : string → option Z;
  (** [base64.b64decode(v)]. *)
  b64decode : json → result (list byte);
  (** [random.uniform(a, b)]. *)
  random_uniform : Q → Q → Q
}.

Class World : Type := {
  (** The [decode_responses] setting of the Redis client.  When it is off,
      as it is for the client that [Redis.from_url(config['redis_url'])]
      builds (line 203), [hgetall] returns a dict whose keys and values
      are [bytes]. *)
  decode_responses : bool;
  (** [redis.keys(pattern)] on the current contents, in the server's order. *)
  redis_keys : gmap string (gmap string string) → string → list string;
  (** [session.get(url, params=...)] followed by [response.json()]. *)
  http_get : string → gmap string json → result json;
  (** [session.post(url, json=...)] followed by [response.json()]. *)
  http_post : string → json → result json;
  (** [Transaction.deserialize(raw)]. *)
  deserialize : list byte → result Transaction;
  (** [wallet.sign_transaction(tx)]. *)
  sign_transaction : Keypair → Transaction → result Transaction;
  (** [tx.serialize()]. *)
  serialize : Transaction → result (list byte);
  (** [client.send_raw_transaction(raw)]. *)
  send_raw_transaction : list byte → result string;
  (** [str(public_key)]. *)
  pubkey_str : list byte → string
}.

(** *** Operators and built-in methods *)

Definition nl : string := String "010"%char "".

(** [a - b] and [a + b] where [b] is an [int]. *)
Definition py_sub (a : pyval) (b : Z) : result Z :=
  match a with
  | VInt n => Ok (n - b)
  | VStr _ => Raise TypeError
  end.

Definition py_add (a : pyval) (b : Z) : result Z :=
  match a with
  | VInt n => Ok (n + b)
  | VStr _ => Raise TypeError
  end.

(** [str(v)] / [f"{v}"]. *)
Definition py_str (v : pyval) : string :=
  match v with
  | VInt n => pretty n
  | VStr s => s
  end.

(** [v[key]] with a [str] key. *)
Definition subscript (v : json) (key : string) : result json :=
  match v with
  | JDict d => of_option (d !! key) (KeyError key)
  | _ => Raise TypeError
  end.

(** Looking up the [str] [key] in the dict that [hgetall] returned for the
    hash [d]: a [str] is never equal to a [bytes] key, so nothing is found
    in the dict of a client that does not decode. *)
Definition hash_get `{W : World} (d : gmap string string) (key : string)
  : option string :=
  if decode_responses then d !! key else None.

(** [d[key]] on such a dict. *)
Definition getitem `{W : World} (d : gmap string string) (key : string)
  : result string :=
  of_option (hash_get d key) (KeyError key).

(** [l[i]] on a list, [i >= 0]. *)
Definition list_item {A} (l : list A) (i : nat) : result A :=
  of_option (l !! i) IndexError.

(** [s.split(sep)] for a one-character separator. *)
Fixpoint split_acc (sep : ascii) (cur : string) (s : string) : list string :=
  match s with
  | EmptyString => [String.rev cur]
  | String c s' =>
      if Ascii.eqb c sep then String.rev cur :: split_acc sep EmptyString s'
      else split_acc sep (String c cur) s'
  end.

Definition str_split (sep : ascii) (s : string) : list string :=
  split_acc sep EmptyString s.

(** [l[start:stop]]: negative bounds count from the end, both are clipped. *)
Definition slice_bound (len i : Z) : Z :=
  if i <? 0 then Z.max (i + len) 0 else Z.min i len.

Definition slice {A} (l : list A) (start stop : Z) : list A :=
  let len := Z.of_nat (length l) in
  let lo := slice_bound len start in
  let hi := slice_bound len stop in
  take (Z.to_nat (hi - lo)) (drop (Z.to_nat lo) l).

(** [l.sort(key=..., reverse=True)] on the list decorated with its keys:
    the sort is stable, and [reverse=True] keeps elements with equal keys
    in their original order.  Only [<] on keys is used. *)
Fixpoint insert_desc {K A} (lt : K → K → bool) (x : K * A) (l : list (K * A))
  : list (K * A) :=
  match l with
  | [] => [x]
  | y :: l' => if lt x.1 y.1 then y :: insert_desc lt x l' else x :: l
  end.

Definition sort_reverse {K A} (lt : K → K → bool) (l : list (K * A)) : list (K * A) :=
  foldr (insert_desc lt) [] l.

(** ** class TokenManager *)

Module TokenManager.
Section WithWorld.
Context {R : PyRuntime} {W : World}.

Definition add_token (wallet_id token_address : string)
    (token_data : gmap string string) : M () :=
  let key := "tokens:" +:+ wallet_id +:+ ":" +:+ token_address in
  db ← read_redis;
  if decide (token_data = ∅) then raise DataError
  else write_redis (<[key := token_data ∪ default ∅ (db !! key)]> db).

(** [float(x.get('value', 0))] *)
Definition value_key (x : gmap string string) : result float :=
  match hash_get x "value" with
  | Some s => of_option (float_of_str s) ValueError
  | None => Ok (float_of_int 0)
  end.

(** [x.get('purchase_date', '')] *)
Definition date_key (x : gmap string string) : string :=
  default "" (hash_get x "purchase_date").

Definition sort_tokens (sort_by : string) (tokens : list (gmap string string))
  : result (list (gmap string string)) :=
  if String.eqb sort_by "value" then
    keys ← mapM value_key tokens;
    Ok (sort_reverse float_lt (zip keys tokens)).*2
  else if String.eqb sort_by "date" then
    Ok (sort_reverse String.ltb (zip (date_key <$> tokens) tokens)).*2
  else Ok tokens.

(** The hashes [redis.keys(pattern)] names, read with [hgetall]. *)
Definition wallet_tokens (db : gmap string (gmap string string)) (wallet_id : string)
  : list (gmap string string) :=
  (λ key, default ∅ (db !! key)) <$> redis_keys db ("tokens:" +:+ wallet_id +:+ ":*").

Definition get_tokens (wallet_id : string) (page : pyval) (sort_by : string)
  : M (list (gmap string string)) :=
  let tokens_per_page := 20 in
  p ← lift (py_sub page 1);
  let start := p * tokens_per_page in
  let end_ := start + tokens_per_page in
  db ← read_redis;
  let tokens := wallet_tokens db wallet_id in
  tokens ← lift (sort_tokens sort_by tokens);
  mret (slice tokens start end_).

End WithWorld.
End TokenManager.

(** ** class TradingManager *)

Module TradingManager.
Section WithWorld.
Context {R : PyRuntime} {W : World}.

Record t : Type := { rpc_url : string; jupiter_api : string }.

Definition init (rpc_url : string) : t :=
  {| rpc_url := rpc_url; jupiter_api := "https://quote-api.jup.ag/v6" |}.

Definition get_quote (self : t) (input_mint output_mint : string) (amount : Z)
  : M json :=
  _ ← load_global "aiohttp";
  let params : gmap string json :=
    {[ "inputMint" := JStr input_mint; "outputMint" := JStr output_mint;
       "amount" := JInt amount; "slippageBps" := JInt 50 ]} in
  _ ← emit (EvGet (jupiter_api self +:+ "/quote") params);
  lift (http_get (jupiter_api self +:+ "/quote") params).

Definition execute_trade (self : t) (quote : json) (wallet : Keypair)
    (anti_mev : bool) : M string :=
  _ ← (if anti_mev then
         _ ← load_global "random";
         let delay := random_uniform (1 # 10) 2 in
         _ ← load_global "asyncio";
         emit (EvSleep delay)
       else mret ());
  _ ← load_global "aiohttp";
  _ ← emit (EvPost (jupiter_api self +:+ "/swap") quote);
  swap_tx ← lift (http_post (jupiter_api self +:+ "/swap") quote);
  _ ← load_global "Transaction";
  _ ← load_global "base64";
  encoded ← lift (subscript swap_tx "swapTransaction");
  raw ← lift (b64decode encoded);
  transaction ← lift (deserialize raw);
  _ ← emit (EvSign wallet transaction);
  signed_tx ← lift (sign_transaction wallet transaction);
  signed_raw ← lift (serialize signed_tx);
  _ ← emit (EvSendRaw signed_raw);
  lift (send_raw_transaction signed_raw).

End WithWorld.
End TradingManager.

(** ** class SolanaTelegramBot *)

Module SolanaTelegramBot.
Section WithWorld.
Context {L : FernetLib} {R : PyRuntime} {W : World}.

Record t : Type := {
  security_manager : SecurityManager.t;
  trading_manager : TradingManager.t
}.

(** [update.message.reply_text(text, reply_markup=...)]; an update without
    a message has [update.message] equal to [None]. *)
Definition reply_text (update : Update) (text : string)
    (reply_markup : option (list (list InlineKeyboardButton))) : M () :=
  if has_message update then emit (EvReply text reply_markup)
  else raise (AttributeError "reply_text").

(** [str(update.effective_user.id)] *)
Definition user_id (update : Update) : M string :=
  match effective_user update with
  | Some id => mret (pretty id)
  | None => raise (AttributeError "id")
  end.

(** The text of the reply to [/createwallet]. *)
Definition wallet_created_text (public_key : string) : string :=
  "Wallet created!" +:+ nl +:+ "Public Key: " +:+ public_key +:+ nl +:+ nl
    +:+ "Your private key has been encrypted and stored securely.".

(** [keypair] is the key pair [Keypair()] generates and [n] the IV and
    clock that [encrypt_private_key] draws. *)
Definition create_wallet_command (self : t) (keypair : Keypair) (n : nonce)
    (update : Update) (context : CallbackContext) : M () :=
  _ ← load_global "Keypair";
  encrypted_private_key ←
    lift (SecurityManager.encrypt_private_key (security_manager self) n
            (secret_key keypair));
  user_id ← user_id update;
  let wallet_data : gmap string string :=
    {[ "public_key" := pubkey_str (public_key keypair);
       "private_key" := encrypted_private_key ]} in
  reply_text update (wallet_created_text (pubkey_str (public_key keypair))) None.

(** One round of the loop that appends a token to the message. *)
Definition token_lines (token : gmap string string) : result string :=
  symbol ← getitem token "symbol";
  value ← getitem token "value";
  value ← of_option (float_of_str value) ValueError;
  purchase_date ← getitem token "purchase_date";
  Ok ("Symbol: " +:+ symbol +:+ nl
        +:+ "Value: $" +:+ format_2f value +:+ nl
        +:+ "Purchase Date: " +:+ purchase_date +:+ nl +:+ nl).

Fixpoint build_message (message : string) (tokens : list (gmap string string))
  : result string :=
  match tokens with
  | [] => Ok message
  | token :: rest =>
      lines ← token_lines token;
      build_message (message +:+ lines) rest
  end.

(** [context.args[0] if context.args else 1] *)
Definition page_arg (context : CallbackContext) : pyval :=
  match args context with
  | Some (a :: _) => VStr a
  | _ => VInt 1
  end.

(** [context.args[1] if len(context.args) > 1 else 'value'] *)
Definition sort_arg (context : CallbackContext) : result string :=
  match args context with
  | None => Raise TypeError
  | Some l => if bool_decide (1 < length l)%nat then list_item l 1 else Ok "value"
  end.

Definition list_tokens_command (self : t) (update : Update)
    (context : CallbackContext) : M () :=
  user_id ← user_id update;
  let page := page_arg context in
  sort_by ← lift (sort_arg context);
  tokens ← TokenManager.get_tokens user_id page sort_by;
  match tokens with
  | [] => reply_text update "No tokens found." None
  | _ =>
      message ← lift (build_message ("Your tokens:" +:+ nl +:+ nl) tokens);
      _ ← load_global "InlineKeyboardButton";
      previous ← lift (py_sub page 1);
      next ← lift (py_add page 1);
      let keyboard :=
        [ [ {| text := "Previous";
               callback_data := "list_" +:+ pretty previous +:+ "_" +:+ sort_by |};
            {| text := "Next";
               callback_data := "list_" +:+ pretty next +:+ "_" +:+ sort_by |} ];
          [ {| text := "Sort by Value";
               callback_data := "list_" +:+ py_str page +:+ "_value" |};
            {| text := "Sort by Date";
               callback_data := "list_" +:+ py_str page +:+ "_date" |} ] ] in
      _ ← load_global "InlineKeyboardMarkup";
      reply_text update message (Some keyboard)
  end.

Definition handle_callback (self : t) (update : Update)
    (context : CallbackContext) : M () :=
  match callback_query update with
  | None => raise (AttributeError "data")
  | Some query_data =>
      let data := str_split "_" query_data in
      head ← lift (list_item data 0);
      if String.eqb head "list" then
        page ← lift (list_item data 1);
        page ← lift (of_option (int_of_str page) ValueError);
        sort_by ← lift (list_item data 2);
        list_tokens_command self update context
      else mret ()
  end.

(** *** [start_command] *)

Definition indent : string := "        ".

Definition welcome_text : string :=
  nl +:+ indent +:+ "Welcome to Solana Trading Bot!" +:+ nl
     +:+ indent +:+ nl
     +:+ indent +:+ "Available commands:" +:+ nl
     +:+ indent +:+ "/createwallet - Create new wallet" +:+ nl
     +:+ indent +:+ "/buy - Buy tokens" +:+ nl
     +:+ indent +:+ "/sell - Sell tokens" +:+ nl
     +:+ indent +:+ "/list - List your tokens" +:+ nl
     +:+ indent.

Definition start_command (self : t) (update : Update) (context : CallbackContext)
  : M () :=
  reply_text update welcome_text None.

(** *** [__init__] and [register_handlers] *)

(** A handler as [add_handler] receives it; [callback] is the name of the
    bound method. *)
Inductive Handler : Type :=
| CommandHandler (command : string) (callback : string)
| CallbackQueryHandler (callback : string).

(** The attributes of a bot when [register_handlers] runs: those
    [__init__] has set, and the methods the class defines. *)
Definition attributes : list string :=
  [ "application"; "security_manager"; "token_manager"; "trading_manager";
    "__init__"; "register_handlers"; "start_command"; "create_wallet_command";
    "list_tokens_command"; "handle_callback"; "run" ].

(** [self.<name>]: [AttributeError] when the bot has no such attribute. *)
Definition load_attr (name : string) : result string :=
  if existsb (String.eqb name) attributes then Ok name
  else Raise (AttributeError name).

(** [self.application.add_handler(make(self.<method>))] after the
    statements before it: the handlers registered so far, and whether one
    of the statements has raised. *)
Definition add_handler (so_far : list Handler * result ())
    (make : string → Handler) (method : string) : list Handler * result () :=
  match so_far with
  | (handlers, Ok _) =>
      match load_attr method with
      | Ok callback => (handlers ++ [make callback], Ok ())
      | Raise e => (handlers, Raise e)
      end
  | (handlers, Raise e) => (handlers, Raise e)
  end.

Definition register_handlers : list Handler * result () :=
  let app := ([], Ok ()) in
  let app := add_handler app (CommandHandler "start") "start_command" in
  let app := add_handler app (CommandHandler "createwallet") "create_wallet_command" in
  let app := add_handler app (CommandHandler "buy") "buy_command" in
  let app := add_handler app (CommandHandler "sell") "sell_command" in
  let app := add_handler app (CommandHandler "list") "list_tokens_command" in
  add_handler app CallbackQueryHandler "handle_callback".

(** [application] is what [Application.builder().token(token).build()]
    gives.  The result carries the handlers the application has received. *)
Definition init (application : result ()) (security_manager : SecurityManager.t)
    (trading_manager : TradingManager.t) : list Handler * result t :=
  match application with
  | Raise e => ([], Raise e)
  | Ok _ =>
      let registered := register_handlers in
      (registered.1,
       _ ← registered.2;
       Ok {| security_manager := security_manager;
             trading_manager := trading_manager |})
  end.

End WithWorld.
End SolanaTelegramBot.

(** ** The spec's freshness test

    The spec speaks of the age of a transaction's recent-block anchor and
    of a configured bound; [age] gives the age of a block hash. *)
Definition anchor_stale (age : list byte → Z) (bound : Z) (tx : Transaction) : bool :=
  bound <? age (recent_blockhash tx).

(** The stages of [execute_trade] as the aggregator and the chain answer
    them: [stage_failure q k e] when some stage, reached with the results of
    the stages before it, raises [e]. *)
Inductive stage_failure `{R : PyRuntime} `{W : World} (url : string) (q : json)
    (k : Keypair) (e : exn) : Prop :=
| fail_post :
    http_post url q = Raise e → stage_failure url q k e
| fail_field swap_tx :
    http_post url q = Ok swap_tx →
    subscript swap_tx "swapTransaction" = Raise e → stage_failure url q k e
| fail_b64decode swap_tx encoded :
    http_post url q = Ok swap_tx →
    subscript swap_tx "swapTransaction" = Ok encoded →
    b64decode encoded = Raise e → stage_failure url q k e
| fail_deserialize swap_tx encoded raw :
    http_post url q = Ok swap_tx →
    subscript swap_tx "swapTransaction" = Ok encoded →
    b64decode encoded = Ok raw →
    deserialize raw = Raise e → stage_failure url q k e
| fail_sign swap_tx encoded raw tx :
    http_post url q = Ok swap_tx →
    subscript swap_tx "swapTransaction" = Ok encoded →
    b64decode encoded = Ok raw →
    deserialize raw = Ok tx →
    sign_transaction k tx = Raise e → stage_failure url q k e
| fail_serialize swap_tx encoded raw tx signed :
    http_post url q = Ok swap_tx →
    subscript swap_tx "swapTransaction" = Ok encoded →
    b64decode encoded = Ok raw →
    deserialize raw = Ok tx →
    sign_transaction k tx = Ok signed →
    serialize signed = Raise e → stage_failure url q k e
| fail_send swap_tx encoded raw tx signed signed_raw :
    http_post url q = Ok swap_tx →
    subscript swap_tx "swapTransaction" = Ok encoded →
    b64decode encoded = Ok raw →
    deserialize raw = Ok tx →
    sign_transaction k tx = Ok signed →
    serialize signed = Ok signed_raw →
    send_raw_transaction signed_raw = Raise e → stage_failure url q k e.

(** The transaction the aggregator's answer to [q] decodes to. *)
Definition built_transaction `{R : PyRuntime} `{W : World} (url : string) (q : json)
  : result Transaction :=
  swap_tx ← http_post url q;
  encoded ← subscript swap_tx "swapTransaction";
  raw ← b64decode encoded;
  deserialize raw.

(** What the store holds: [v] is the value of some field of some hash. *)
Definition holds_value (db : gmap string (gmap string string)) (v : string) : Prop :=
  ∃ key field, db !! key ≫= (.!! field) = Some v.

(** ** Small instances of the libraries, to run the program on *)

Module Demo.

(** A stand-in for Fernet that spells every byte as two characters in
    ['@'..'O'].  It keeps the interface and its contract, not the secrecy. *)
Definition spell (low : bool * (bool * (bool * bool))) : byte :=
  let '(b0, (b1, (b2, b3))) := low in
  Byte.of_bits (b0, (b1, (b2, (b3, (false, (false, (true, false))))))).

Definition unspell (c : byte) : option (bool * (bool * (bool * bool))) :=
  match Byte.to_bits c with
  | (b0, (b1, (b2, (b3, (false, (false, (true, false))))))) => Some (b0, (b1, (b2, b3)))
  | _ => None
  end.

Definition spell_byte (b : byte) : list byte :=
  let '(b0, (b1, (b2, (b3, (b4, (b5, (b6, b7))))))) := Byte.to_bits b in
  [spell (b0, (b1, (b2, b3))); spell (b4, (b5, (b6, b7)))].

Fixpoint spell_bytes (m : list byte) : list byte :=
  match m with
  | [] => []
  | b :: m' => spell_byte b ++ spell_bytes m'
  end.

Fixpoint unspell_bytes (t : list byte) : option (list byte) :=
  match t with
  | [] => Some []
  | [_] => None
  | c1 :: c2 :: t' =>
      match unspell c1, unspell c2, unspell_bytes t' with
      | Some (b0, (b1, (b2, b3))), Some (b4, (b5, (b6, b7))), Some m' =>
          Some (Byte.of_bits (b0, (b1, (b2, (b3, (b4, (b5, (b6, b7))))))) :: m')
      | _, _, _ => None
      end
  end.

Definition fernet_lib : FernetLib := {|
  fernet := list byte;
  Fernet_new key := if decide (length key = 44%nat) then Some key else None;
  fernet_encrypt _ _ m := spell_bytes m;
  fernet_decrypt _ t := unspell_bytes t
|}.







(** Decimal digits, for a runtime whose numbers are all integers. *)
Definition digit_of (c : ascii) : option Z :=
  let n := Z.of_N (N_of_ascii c) in
  if (48 <=? n) && (n <=? 57) then Some (n - 48) else None.

Fixpoint digits_acc (acc : Z) (s : string) : option Z :=
  match s with
  | EmptyString => Some acc
  | String c s' =>
      match digit_of c with
      | Some d => digits_acc (10 * acc + d) s'
      | None => None
      end
  end.

Definition number_of_str (s : string) : option Z :=
  match s with
  | EmptyString => None
  | _ => digits_acc 0 s
  end.

Definition runtime : PyRuntime := {|
  float := Z;
  float_of_str := number_of_str;
  float_of_int n := n;
  float_lt := Z.ltb;
  format_2f x := pretty x +:+ ".00";
  int_of_str := number_of_str;
  b64decode v :=
    match v with
    | JStr s => Ok (encode s)
    | _ => Raise TypeError
    end;
  random_uniform a _ := a
|}.

(** A world whose aggregator answers every [/swap] with [swap_answer] and
    whose chain accepts everything; [decode] is the [decode_responses]
    setting of its Redis client. *)
Definition client_world (decode : bool) (swap_answer : result json) : World := {|
  decode_responses := decode;
  redis_keys db pattern :=
    filter (λ key, String.prefix (String.substring 0 (String.length pattern - 1) pattern) key = true)
           (map_to_list db).*1;
  http_get _ _ := Ok JNull;
  http_post _ _ := swap_answer;
  deserialize raw :=
    Ok {| recent_blockhash := take 2 raw; message := drop 2 raw; signatures := [] |};
  sign_transaction wallet tx :=
    Ok {| recent_blockhash := recent_blockhash tx; message := message tx;
          signatures := [public_key wallet] |};
  serialize tx := Ok (recent_blockhash tx ++ message tx ++ concat (signatures tx));
  send_raw_transaction _ := Ok "5VERv8NMvzbJMEkV8xnrLkEaWRtSz9CosKDYjCJjBRnb";
  pubkey_str pk := String.string_of_list_byte pk
|}.

(** The world of a client made with [decode_responses=True]. *)
Definition world (swap_answer : result json) : World :=
  client_world true swap_answer.

(** The world of the client that [app.py] makes. *)
Definition app_world : World :=
  client_world false (Ok (JDict {[ "swapTransaction" := JStr "bhtransfer" ]})).

Definition master_key : string := "c2VjcmV0LWtleS1mb3ItdGhlLWRlbW8td2FsbGV0ISE=".

Definition manager : @SecurityManager.t fernet_lib :=
  {| SecurityManager.fernet_ := (encode master_key : @fernet fernet_lib) |}.


Definition trader : TradingManager.t :=
  TradingManager.init "https://api.mainnet-beta.solana.com".

Definition bot : @SolanaTelegramBot.t fernet_lib :=
  {| SolanaTelegramBot.security_manager := manager;
     SolanaTelegramBot.trading_manager := trader |}.

Definition wallet : Keypair :=
  {| public_key := ["P"; "K"]%byte; secret_key := ["s"; "e"; "c"; "r"; "e"; "t"]%byte |}.

Definition empty_state : state := {| redis := ∅; trace := [] |}.

Definition fresh_nonce : nonce := {| iv := []; now := 0 |}.

Definition quote : json :=
  JDict {[ "inputMint" := JStr "So11111111111111111111111111111111111111112";
           "outputMint" := JStr "EPjFWdd5AufqSSqeM2qN1xzybapC8G4wEGGkZwyTDt1v";
           "inAmount" := JStr "1000000"; "slippageBps" := JInt 50 ]}.

(** The aggregator turning the quote down, and the aggregator accepting it. *)
Definition rejection : result json :=
  Ok (JDict {[ "error" := JStr "Quote expired" ]}).

Definition acceptance : result json :=
  Ok (JDict {[ "swapTransaction" := JStr "bhtransfer" ]}).

Definition accepted_transaction : Transaction :=
  {| recent_blockhash := ["b"; "h"]%byte;
     message := ["t"; "r"; "a"; "n"; "s"; "f"; "e"; "r"]%byte;
     signatures := [] |}.

(** Every anchor is 1000 slots old. *)
Definition old_age (blockhash : list byte) : Z := 1000.

Definition token (symbol value purchase_date : string) : gmap string string :=
  {[ "symbol" := symbol; "value" := value; "purchase_date" := purchase_date ]}.

Definition holdings : state :=
  {| redis := {[ "tokens:42:AAA" := token "AAA" "5" "2024-01-02";
                 "tokens:42:BBB" := token "BBB" "17" "2024-03-01";
                 "tokens:42:CCC" := token "CCC" "9" "2023-12-24";
                 "tokens:7:ZZZ" := token "ZZZ" "100" "2024-02-02" ]};
     trace := [] |}.

(** [/createwallet] and [/list] sent by user 42, and a button press. *)
Definition command : Update :=
  {| effective_user := Some 42; has_message := true; callback_query := None |}.

Definition pressed (data : string) : Update :=
  {| effective_user := Some 42; has_message := true; callback_query := Some data |}.

Definition no_args : CallbackContext := {| args := Some [] |}.

(** A wallet with a token whose value is not a number. *)
Definition unpriced : state :=
  {| redis := {[ "tokens:42:AAA" := token "AAA" "5" "2024-01-02";
                 "tokens:42:EEE" := token "EEE" "n/a" "2024-04-04" ]};
     trace := [] |}.

End Demo.

(** The keyboard under a listing of page 1 sorted by value. *)
Definition first_page_keyboard : list (list InlineKeyboardButton) :=
  [ [ {| text := "Previous"; callback_data := "list_0_value" |};
      {| text := "Next"; callback_data := "list_2_value" |} ];
    [ {| text := "Sort by Value"; callback_data := "list_1_value" |};
      {| text := "Sort by Date"; callback_data := "list_1_date" |} ] ].

(** A token that [list_tokens_command] can print. *)
Definition printable `{R : PyRuntime} `{W : World} (token : gmap string string)
  : Prop :=
  is_Some (hash_get token "symbol")
  ∧ (∃ v, hash_get token "value" = Some v ∧ is_Some (float_of_str v))
  ∧ is_Some (hash_get token "purchase_date").

(** The characters of a string. *)
Definition chars (s : string) : list ascii := String.list_ascii_of_string s.

(** * Properties *)

(** ** Text and bytes *)

Lemma ascii_utf8_valid (b : list byte) :
  forallb is_ascii b = true → utf8_valid b = true.
Proof.
  induction b as [|c b IH]; [done|].
  cbn [forallb utf8_valid]. intros [Hc Hb]%andb_true_iff.
  rewrite Hc. auto.
Qed.

Lemma decode_ascii (b : list byte) :
  forallb is_ascii b = true → decode b = Ok (String.string_of_list_byte b).
Proof. intros H. unfold decode. by rewrite ascii_utf8_valid. Qed.

Lemma decode_inv (b : list byte) (s : string) :
  decode b = Ok s → b = encode s.
Proof.
  unfold decode, encode. destruct (utf8_valid b); [|done].
  intros [= <-]. by rewrite String.list_byte_of_string_of_list_byte.
Qed.

Lemma encode_decode_ascii (s : string) :
  forallb is_ascii (encode s) = true → decode (encode s) = Ok s.
Proof.
  intros H. rewrite decode_ascii by done.
  unfold encode. by rewrite String.string_of_list_byte_of_string.
Qed.

(** ** SecurityManager *)

Section SecurityManagerProps.
Context `{L : FernetLib} (HL : FernetContract L).

Lemma encrypt_private_key_token (sm : SecurityManager.t) (n : nonce) (k : list byte) :
  SecurityManager.encrypt_private_key sm n k
  = Ok (String.string_of_list_byte (fernet_encrypt (SecurityManager.fernet_ sm) n k)).
Proof.
  unfold SecurityManager.encrypt_private_key.
  apply decode_ascii, (fernet_token_ascii L HL).
Qed.

Lemma decrypt_private_key_token (sm : SecurityManager.t) (n : nonce) (k : list byte) :
  SecurityManager.decrypt_private_key sm
    (String.string_of_list_byte (fernet_encrypt (SecurityManager.fernet_ sm) n k))
  = Ok k.
Proof.
  unfold SecurityManager.decrypt_private_key, encode.
  rewrite String.list_byte_of_string_of_list_byte.
  by rewrite (fernet_roundtrip L HL).
Qed.

(** C4.  Under a valid master key [m], decrypting what
    [encrypt_private_key] made of a secret key [k] gives back exactly [k]. *)
Theorem decrypt_encrypt_roundtrip (m : string) (sm : SecurityManager.t)
    (n : nonce) (k : list byte) :
  SecurityManager.init m = Ok sm →
  ∃ c, SecurityManager.encrypt_private_key sm n k = Ok c
       ∧ SecurityManager.decrypt_private_key sm c = Ok k.
Proof.
  intros _. eexists. split.
  - apply encrypt_private_key_token.
  - apply decrypt_private_key_token.
Qed.






End SecurityManagerProps.

(** ** The demonstration Fernet keeps the contract *)

Lemma unspell_spell x : Demo.unspell (Demo.spell x) = Some x.
Proof.
  destruct x as (b0 & b1 & b2 & b3). unfold Demo.unspell, Demo.spell.
  by rewrite Byte.to_bits_of_bits.
Qed.

Lemma spell_is_ascii x : is_ascii (Demo.spell x) = true.
Proof. by destruct x as ([] & [] & [] & []). Qed.

Lemma unspell_spell_bytes m : Demo.unspell_bytes (Demo.spell_bytes m) = Some m.
Proof.
  induction m as [|b m IH]; [done|].
  cbn [Demo.spell_bytes]. unfold Demo.spell_byte.
  rewrite <- (Byte.of_bits_to_bits b) at 2.
  destruct (Byte.to_bits b) as (b0 & b1 & b2 & b3 & b4 & b5 & b6 & b7).
  cbn [app Demo.unspell_bytes]. by rewrite !unspell_spell, IH.
Qed.

Lemma spell_bytes_is_ascii m : forallb is_ascii (Demo.spell_bytes m) = true.
Proof.
  induction m as [|b m IH]; [done|].
  cbn [Demo.spell_bytes]. unfold Demo.spell_byte.
  destruct (Byte.to_bits b) as (b0 & b1 & b2 & b3 & b4 & b5 & b6 & b7).
  cbn [app forallb]. by rewrite !spell_is_ascii, IH.
Qed.

Lemma demo_fernet_contract : FernetContract Demo.fernet_lib.
Proof.
  split; cbn.
  - intros _ _ m. apply unspell_spell_bytes.
  - intros _ _ m. apply spell_bytes_is_ascii.
Qed.










Lemma decrypt_encrypt_roundtrip_witness :
  ∃ c, SecurityManager.encrypt_private_key Demo.manager Demo.fresh_nonce
         (secret_key Demo.wallet) = Ok c
       ∧ SecurityManager.decrypt_private_key Demo.manager c
         = Ok (secret_key Demo.wallet).
Proof.
  apply (decrypt_encrypt_roundtrip demo_fernet_contract Demo.master_key).
  reflexivity.
Defined.



(** ** TradingManager.execute_trade *)

Lemma logged_logged (st : state) (a b : list event) :
  logged (logged st a) b = logged st (a ++ b).
Proof. unfold logged. cbn. by rewrite <- app_assoc. Qed.

Section ExecuteTradeProps.
Context `{R : PyRuntime} `{W : World}.
Implicit Types (self : TradingManager.t) (q : json) (k : Keypair) (st : state).

(** What [execute_trade] does without the delay, stage by stage. *)
Lemma execute_trade_stages self q k st :
  let url := TradingManager.jupiter_api self +:+ "/swap" in
  let st1 := logged st [EvPost url q] in
  TradingManager.execute_trade self q k false st =
  match http_post url q with
  | Raise e => (Raise e, st1)
  | Ok swap_tx =>
    match subscript swap_tx "swapTransaction" with
    | Raise e => (Raise e, st1)
    | Ok encoded =>
      match b64decode encoded with
      | Raise e => (Raise e, st1)
      | Ok raw =>
        match deserialize raw with
        | Raise e => (Raise e, st1)
        | Ok tx =>
          let st2 := logged st [EvPost url q; EvSign k tx] in
          match sign_transaction k tx with
          | Raise e => (Raise e, st2)
          | Ok signed =>
            match serialize signed with
            | Raise e => (Raise e, st2)
            | Ok signed_raw =>
                (send_raw_transaction signed_raw,
                 logged st [EvPost url q; EvSign k tx; EvSendRaw signed_raw])
            end
          end
        end
      end
    end
  end.
Proof.
  unfold TradingManager.execute_trade, mbind, M_bind, mret, M_ret, lift, emit.
  cbn.
  destruct (http_post _ q) as [swap_tx|]; [|done].
  destruct (subscript swap_tx _) as [encoded|]; [|done].
  destruct (b64decode encoded) as [raw|]; [|done].
  destruct (deserialize raw) as [tx|]; [|done].
  destruct (sign_transaction k tx) as [signed|]; [|by rewrite logged_logged].
  destruct (serialize signed) as [signed_raw|]; by rewrite !logged_logged.
Qed.

(** C6.  With anti-front-running mode enabled, [execute_trade] stops at
    the name [random], which the module never imports: it raises
    [NameError] before any delay is drawn and nothing else happens. *)
Theorem execute_trade_anti_mev_name_error self q k st :
  TradingManager.execute_trade self q k true st = (Raise (NameError "random"), st).
Proof. reflexivity. Qed.

(** C2, as amended.  [execute_trade] has no error boundary: without the
    delay it raises [e] exactly when one of its stages (the POST, the
    field access, the base64 decoding, the deserialisation, the signing,
    the serialisation, the broadcast) raises [e]. *)
Theorem execute_trade_raises_stage_failure self q k st e :
  (TradingManager.execute_trade self q k false st).1 = Raise e
  ↔ stage_failure (TradingManager.jupiter_api self +:+ "/swap") q k e.
Proof.
  rewrite execute_trade_stages. cbv zeta.
  destruct (http_post _ q) as [swap_tx|e1] eqn:H1.
  2:{ cbn. split; [intros [= ->]; by constructor|].
      intros []; congruence. }
  destruct (subscript swap_tx _) as [encoded|e2] eqn:H2.
  2:{ cbn. split; [intros [= ->]; by eapply fail_field|].
      intros []; congruence. }
  destruct (b64decode encoded) as [raw|e3] eqn:H3.
  2:{ cbn. split; [intros [= ->]; by eapply fail_b64decode|].
      intros []; congruence. }
  destruct (deserialize raw) as [tx|e4] eqn:H4.
  2:{ cbn. split; [intros [= ->]; by eapply fail_deserialize|].
      intros []; congruence. }
  destruct (sign_transaction k tx) as [signed|e5] eqn:H5.
  2:{ cbn. split; [intros [= ->]; by eapply fail_sign|].
      intros []; congruence. }
  destruct (serialize signed) as [signed_raw|e6] eqn:H6.
  2:{ cbn. split; [intros [= ->]; by eapply fail_serialize|].
      intros []; congruence. }
  cbn. split; [intros Hs; by eapply fail_send|].
  intros []; congruence.
Qed.

(** C3, as amended.  When the aggregator answers the [/swap] request
    with an object that has no ['swapTransaction'], [execute_trade]
    without the delay raises [KeyError] right after the POST: nothing is
    signed or sent, and the wallet's key plays no part. *)
Theorem execute_trade_rejected_quote self q k st d :
  http_post (TradingManager.jupiter_api self +:+ "/swap") q = Ok (JDict d) →
  d !! "swapTransaction" = None →
  TradingManager.execute_trade self q k false st
  = (Raise (KeyError "swapTransaction"),
     logged st [EvPost (TradingManager.jupiter_api self +:+ "/swap") q]).
Proof.
  intros Hpost Hnone. rewrite execute_trade_stages. cbv zeta.
  rewrite Hpost. cbn. by rewrite Hnone.
Qed.

(** C8, as amended.  [execute_trade] does not look at the anchor of the
    transaction it is given: without the delay, every transaction the
    aggregator's answer decodes to is handed to the wallet for signing,
    and the outcome is that of signing, serialising and sending it. *)
Theorem execute_trade_signs_what_it_gets self q k st tx :
  built_transaction (TradingManager.jupiter_api self +:+ "/swap") q = Ok tx →
  (TradingManager.execute_trade self q k false st).1
  = (signed ← sign_transaction k tx;
     signed_raw ← serialize signed;
     send_raw_transaction signed_raw)
  ∧ EvSign k tx ∈ trace (TradingManager.execute_trade self q k false st).2.
Proof.
  unfold built_transaction. rewrite execute_trade_stages. cbv zeta.
  destruct (http_post _ q) as [swap_tx|]; [|done]. cbn.
  destruct (subscript swap_tx _) as [encoded|]; [|done]. cbn.
  destruct (b64decode encoded) as [raw|]; [|done]. cbn.
  intros ->.
  destruct (sign_transaction k tx) as [signed|]; cbn;
    [destruct (serialize signed) as [signed_raw|]; cbn|];
    (split; [done|]); set_solver.
Qed.

End ExecuteTradeProps.

Lemma post_timeout_run :
  (TradingManager.execute_trade (R := Demo.runtime)
     (W := Demo.world (Raise (ClientError "timeout")))
     Demo.trader Demo.quote Demo.wallet false Demo.empty_state).1
  = Raise (ClientError "timeout").
Proof. reflexivity. Qed.

(** C2, counterexample.  It is not the case that [execute_trade] always
    returns a value: when the POST to the aggregator fails, the
    [ClientError] leaves [execute_trade] as an exception. *)
Lemma execute_trade_failure_escapes :
  ¬ (∀ (R : PyRuntime) (W : World) self q k anti_mev st,
       ∃ v, (TradingManager.execute_trade self q k anti_mev st).1 = Ok v).
Proof.
  intros H.
  destruct (H Demo.runtime (Demo.world (Raise (ClientError "timeout")))
              Demo.trader Demo.quote Demo.wallet false Demo.empty_state)
    as [v Hv].
  rewrite post_timeout_run in Hv. discriminate Hv.
Qed.

(** C3, counterexample.  A rejected quote does not make [execute_trade]
    return a failure value: it raises. *)
Lemma rejected_quote_is_not_a_returned_failure :
  ¬ (∀ (R : PyRuntime) (W : World) self q k st d,
       http_post (TradingManager.jupiter_api self +:+ "/swap") q = Ok (JDict d) →
       d !! "swapTransaction" = None →
       ∃ v, (TradingManager.execute_trade self q k false st).1 = Ok v).
Proof.
  intros H.
  destruct (H Demo.runtime (Demo.world Demo.rejection)
              Demo.trader Demo.quote Demo.wallet Demo.empty_state
              {[ "error" := JStr "Quote expired" ]} eq_refl eq_refl)
    as [v Hv].
  vm_compute in Hv. discriminate Hv.
Qed.

Lemma execute_trade_rejected_quote_witness :
  TradingManager.execute_trade (R := Demo.runtime) (W := Demo.world Demo.rejection)
    Demo.trader Demo.quote Demo.wallet false Demo.empty_state
  = (Raise (KeyError "swapTransaction"),
     logged Demo.empty_state [EvPost "https://quote-api.jup.ag/v6/swap" Demo.quote]).
Proof.
  apply (execute_trade_rejected_quote (R := Demo.runtime)
           (W := Demo.world Demo.rejection) Demo.trader Demo.quote Demo.wallet
           Demo.empty_state {[ "error" := JStr "Quote expired" ]});
    reflexivity.
Defined.

(** C8, counterexample.  A transaction whose anchor is older than the
    bound is signed all the same. *)
Lemma stale_transaction_is_signed :
  ¬ (∀ (R : PyRuntime) (W : World) (age : list byte → Z) (bound : Z)
       self q k st tx,
       built_transaction (TradingManager.jupiter_api self +:+ "/swap") q = Ok tx →
       anchor_stale age bound tx = true →
       EvSign k tx ∉ trace (TradingManager.execute_trade self q k false st).2).
Proof.
  intros H.
  apply (H Demo.runtime (Demo.world Demo.acceptance) Demo.old_age 150
           Demo.trader Demo.quote Demo.wallet Demo.empty_state
           Demo.accepted_transaction eq_refl eq_refl).
  vm_compute. apply list_elem_of_further, list_elem_of_here.
Qed.

Lemma execute_trade_signs_what_it_gets_witness :
  (TradingManager.execute_trade (R := Demo.runtime) (W := Demo.world Demo.acceptance)
     Demo.trader Demo.quote Demo.wallet false Demo.empty_state).1
  = Ok "5VERv8NMvzbJMEkV8xnrLkEaWRtSz9CosKDYjCJjBRnb"
  ∧ EvSign Demo.wallet Demo.accepted_transaction
    ∈ trace (TradingManager.execute_trade (R := Demo.runtime)
               (W := Demo.world Demo.acceptance)
               Demo.trader Demo.quote Demo.wallet false Demo.empty_state).2.
Proof.
  apply (execute_trade_signs_what_it_gets (R := Demo.runtime)
           (W := Demo.world Demo.acceptance) Demo.trader Demo.quote Demo.wallet
           Demo.empty_state Demo.accepted_transaction).
  reflexivity.
Defined.

(** ** SolanaTelegramBot.create_wallet_command *)

Section CreateWalletProps.
Context `{L : FernetLib} `{W : World}.

(** Every way [create_wallet_command] can end. *)
Lemma create_wallet_command_run (self : SolanaTelegramBot.t) (kp : Keypair)
    (n : nonce) (upd : Update) (ctx : CallbackContext) (st : state) :
  SolanaTelegramBot.create_wallet_command self kp n upd ctx st =
  match SecurityManager.encrypt_private_key
          (SolanaTelegramBot.security_manager self) n (secret_key kp) with
  | Raise e => (Raise e, st)
  | Ok _ =>
      match effective_user upd with
      | None => (Raise (AttributeError "id"), st)
      | Some _ =>
          if has_message upd
          then (Ok (), logged st [EvReply (SolanaTelegramBot.wallet_created_text
                          (pubkey_str (public_key kp))) None])
          else (Raise (AttributeError "reply_text"), st)
      end
  end.
Proof.
  unfold SolanaTelegramBot.create_wallet_command, SolanaTelegramBot.user_id,
    SolanaTelegramBot.reply_text, mbind, M_bind, mret, M_ret, lift, emit, raise.
  cbn.
  destruct (SecurityManager.encrypt_private_key _ n _); [|done].
  destruct (effective_user upd); [|done].
  by destruct (has_message upd).
Qed.

Lemma create_wallet_command_redis (self : SolanaTelegramBot.t) (kp : Keypair)
    (n : nonce) (upd : Update) (ctx : CallbackContext) (st : state) :
  redis (SolanaTelegramBot.create_wallet_command self kp n upd ctx st).2 = redis st.
Proof.
  rewrite create_wallet_command_run.
  destruct (SecurityManager.encrypt_private_key _ n _); [|done].
  destruct (effective_user upd); [|done].
  by destruct (has_message upd).
Qed.

(** C7.  [create_wallet_command] builds the wallet record and drops it:
    whatever the request, the store holds after the command exactly what
    it held before. *)
Theorem create_wallet_command_persists_nothing (self : SolanaTelegramBot.t)
    (kp : Keypair) (n : nonce) (upd : Update) (ctx : CallbackContext) (st : state) :
  redis (SolanaTelegramBot.create_wallet_command self kp n upd ctx st).2 = redis st
  ∧ (SolanaTelegramBot.create_wallet_command self kp n upd ctx st).2
    ∈ [st; logged st [EvReply (SolanaTelegramBot.wallet_created_text (pubkey_str (public_key kp))) None]].
Proof.
  split; [apply create_wallet_command_redis|].
  rewrite create_wallet_command_run.
  destruct (SecurityManager.encrypt_private_key _ n _); [|set_solver].
  destruct (effective_user upd); [|set_solver].
  destruct (has_message upd); set_solver.
Qed.

(** C1, as amended.  There is no scoped acquisition and nothing is
    zeroed: [decrypt_private_key] hands the plaintext secret key back to
    its caller as its result.  Wallet creation stores and sends no
    plaintext: a value that the store holds afterwards and did not hold
    before is not the secret key, and the only message sent names the
    public key. *)
Theorem plaintext_key_returned_not_stored (HL : FernetContract L)
    (sm : SecurityManager.t) (self : SolanaTelegramBot.t) (kp : Keypair)
    (n : nonce) (upd : Update) (ctx : CallbackContext) (st : state) :
  (∃ c, SecurityManager.encrypt_private_key sm n (secret_key kp) = Ok c
        ∧ SecurityManager.decrypt_private_key sm c = Ok (secret_key kp))
  ∧ (∀ v, holds_value
            (redis (SolanaTelegramBot.create_wallet_command self kp n upd ctx st).2) v →
          holds_value (redis st) v
          ∨ v ≠ String.string_of_list_byte (secret_key kp))
  ∧ (∀ ev, ev ∈ trace (SolanaTelegramBot.create_wallet_command self kp n upd ctx st).2 →
           ev ∈ trace st
           ∨ ev = EvReply (SolanaTelegramBot.wallet_created_text
                             (pubkey_str (public_key kp))) None).
Proof.
  split; [|split].
  - eexists. split.
    + by apply encrypt_private_key_token.
    + by apply decrypt_private_key_token.
  - intros v. rewrite create_wallet_command_redis. by left.
  - intros ev. rewrite create_wallet_command_run.
    destruct (SecurityManager.encrypt_private_key _ n _); [|by left].
    destruct (effective_user upd); [|by left].
    destruct (has_message upd); [|by left].
    cbn. rewrite elem_of_app, list_elem_of_singleton. tauto.
Qed.

End CreateWalletProps.

(** C1, counterexample.  It is not the case that no operation returns a
    plaintext secret key: [decrypt_private_key] returns it. *)
Lemma decrypt_private_key_returns_plaintext :
  ¬ (∀ (L : FernetLib), FernetContract L →
       ∀ (sm : SecurityManager.t) n k c out,
         SecurityManager.encrypt_private_key sm n k = Ok c →
         SecurityManager.decrypt_private_key sm c = Ok out → out ≠ k).
Proof.
  intros H.
  apply (H Demo.fernet_lib demo_fernet_contract Demo.manager Demo.fresh_nonce
           (secret_key Demo.wallet) "CGEFCFBGEFDG" (secret_key Demo.wallet));
    reflexivity.
Qed.

Lemma plaintext_key_returned_not_stored_witness :
  (∃ c, SecurityManager.encrypt_private_key Demo.manager Demo.fresh_nonce
          (secret_key Demo.wallet) = Ok c
        ∧ SecurityManager.decrypt_private_key Demo.manager c
          = Ok (secret_key Demo.wallet))
  ∧ (∀ v, holds_value
            (redis (SolanaTelegramBot.create_wallet_command
                      (W := Demo.world Demo.acceptance) Demo.bot Demo.wallet
                      Demo.fresh_nonce Demo.command Demo.no_args
                      Demo.empty_state).2) v →
          holds_value (redis Demo.empty_state) v
          ∨ v ≠ String.string_of_list_byte (secret_key Demo.wallet))
  ∧ (∀ ev, ev ∈ trace (SolanaTelegramBot.create_wallet_command
                         (W := Demo.world Demo.acceptance) Demo.bot Demo.wallet
                         Demo.fresh_nonce Demo.command Demo.no_args
                         Demo.empty_state).2 →
           ev ∈ trace Demo.empty_state
           ∨ ev = EvReply (SolanaTelegramBot.wallet_created_text
                             (pubkey_str (World := Demo.world Demo.acceptance)
                                (public_key Demo.wallet))) None).
Proof.
  exact (plaintext_key_returned_not_stored
           (W := Demo.world Demo.acceptance) demo_fernet_contract
           Demo.manager Demo.bot Demo.wallet Demo.fresh_nonce Demo.command
           Demo.no_args Demo.empty_state).
Defined.

(** ** Sorting and slicing *)

Lemma slice_page {A} (l : list A) (p : Z) :
  1 ≤ p →
  slice l ((p - 1) * 20) ((p - 1) * 20 + 20)
  = take 20 (drop (Z.to_nat ((p - 1) * 20)) l).
Proof.
  intros Hp. unfold slice, slice_bound.
  set (s := (p - 1) * 20). assert (0 ≤ s) by lia.
  destruct (Z.ltb_spec s 0); [lia|].
  destruct (Z.ltb_spec (s + 20) 0); [lia|].
  destruct (Z.le_gt_cases (Z.of_nat (length l)) s) as [Hge|Hlt].
  - rewrite !Z.min_r by lia. rewrite Nat2Z.id.
    rewrite (drop_ge l (length l)) by lia.
    rewrite (drop_ge l (Z.to_nat s)) by lia.
    by rewrite !take_nil.
  - rewrite (Z.min_l s) by lia.
    destruct (Z.le_gt_cases (s + 20) (Z.of_nat (length l))).
    + rewrite (Z.min_l (s + 20)) by lia. f_equal. lia.
    + rewrite (Z.min_r (s + 20)) by lia.
      rewrite !take_ge; [done| |]; rewrite length_drop; lia.
Qed.

Section SortReverse.
Context {K A : Type} (lt : K → K → bool).
Implicit Types (x : K * A) (l : list (K * A)).

Lemma insert_desc_perm x l : insert_desc lt x l ≡ₚ x :: l.
Proof.
  induction l as [|y l IH]; [done|]. cbn.
  destruct (lt x.1 y.1); [|done].
  rewrite IH. apply Permutation_swap.
Qed.

Lemma sort_reverse_perm l : sort_reverse lt l ≡ₚ l.
Proof.
  induction l as [|x l IH]; [done|]. cbn.
  fold (sort_reverse lt l). by rewrite insert_desc_perm, IH.
Qed.

Lemma sort_reverse_same_key (k : K) l :
  lt k k = false → Forall (λ p, p.1 = k) l → sort_reverse lt l = l.
Proof.
  intros Hk. induction 1 as [|x l Hx Hl IH]; [done|].
  cbn. fold (sort_reverse lt l). rewrite IH.
  destruct Hl as [|y l Hy _]; [done|].
  cbn. by rewrite Hx, Hy, Hk.
Qed.

End SortReverse.

Lemma mapM_result_Forall2 {A B} (f : A → result B) (l : list A) (k : list B) :
  mapM f l = Ok k → Forall2 (λ x y, f x = Ok y) l k.
Proof.
  revert k. induction l as [|x l IH]; intros k; cbn.
  - intros [= <-]. constructor.
  - destruct (f x) as [y|] eqn:Hy; [|done]. cbn.
    destruct (mapM f l) as [k'|]; [|done]. cbn.
    intros [= <-]. constructor; auto.
Qed.

(** ** TokenManager.get_tokens *)

Section GetTokensProps.
Context `{R : PyRuntime} `{W : World}.
Implicit Types (tokens sorted : list (gmap string string)).

Lemma get_tokens_run (wallet_id : string) (p : Z) (sort_by : string) (st : state) :
  TokenManager.get_tokens wallet_id (VInt p) sort_by st =
  match TokenManager.sort_tokens sort_by
          (TokenManager.wallet_tokens (redis st) wallet_id) with
  | Ok sorted => (Ok (slice sorted ((p - 1) * 20) ((p - 1) * 20 + 20)), st)
  | Raise e => (Raise e, st)
  end.
Proof.
  unfold TokenManager.get_tokens, mbind, M_bind, mret, M_ret, lift, read_redis.
  cbn. by destruct (TokenManager.sort_tokens _ _).
Qed.

(** With the client that does not decode, every token has the same sort
    key. *)
Lemma value_key_undecoded (x : gmap string string) :
  decode_responses = false → TokenManager.value_key x = Ok (float_of_int 0).
Proof. intros Hraw. unfold TokenManager.value_key, hash_get. by rewrite Hraw. Qed.

Lemma date_key_undecoded (x : gmap string string) :
  decode_responses = false → TokenManager.date_key x = "".
Proof. intros Hraw. unfold TokenManager.date_key, hash_get. by rewrite Hraw. Qed.

Lemma mapM_value_key_undecoded (tokens : list (gmap string string)) :
  decode_responses = false →
  mapM TokenManager.value_key tokens = Ok ((λ _, float_of_int 0) <$> tokens).
Proof.
  intros Hraw. induction tokens as [|x tokens IH]; [done|].
  cbn. rewrite value_key_undecoded by done. cbn. by rewrite IH.
Qed.

Lemma sort_reverse_equal_keys {K} (lt : K → K → bool) (k : K)
    (keys : list K) tokens :
  lt k k = false → Forall (λ k', k' = k) keys → length keys = length tokens →
  (sort_reverse lt (zip keys tokens)).*2 = tokens.
Proof.
  intros Hk Hkeys Hlen. rewrite (sort_reverse_same_key lt k); [|done|].
  - apply snd_zip. lia.
  - clear Hlen. revert tokens.
    induction Hkeys as [|k' keys -> _ IH]; intros [|x tokens]; cbn;
      constructor; auto.
Qed.

Lemma sort_tokens_undecoded (sort_by : string) tokens :
  decode_responses = false →
  float_lt (float_of_int 0) (float_of_int 0) = false →
  TokenManager.sort_tokens sort_by tokens = Ok tokens.
Proof.
  intros Hraw Hzero. unfold TokenManager.sort_tokens.
  destruct (String.eqb sort_by "value").
  - rewrite mapM_value_key_undecoded by done.
    cbn. f_equal. apply (sort_reverse_equal_keys _ (float_of_int 0)); [done| |].
    + apply Forall_fmap, Forall_forall. done.
    + apply length_fmap.
  - destruct (String.eqb sort_by "date"); [|done].
    f_equal. apply (sort_reverse_equal_keys _ ""); [done| |].
    + apply Forall_fmap, Forall_forall. intros x _. by apply date_key_undecoded.
    + apply length_fmap.
Qed.

(** C9.  What the code does instead.  The client that [app.py] makes does
    not decode, so no token has a ['value'] or a ['purchase_date'] under
    a [str] key: all sort keys are equal and the sort moves nothing.  For
    every page [p >= 1] and every [sort_by], [get_tokens] returns the slice
    [(p-1)*20, p*20) of the tokens in the order of the store -- not in
    descending order of value or date. *)
Theorem get_tokens_store_order (wallet_id : string) (p : Z) (sort_by : string)
    (st : state) :
  decode_responses = false →
  float_lt (float_of_int 0) (float_of_int 0) = false →
  1 ≤ p →
  TokenManager.get_tokens wallet_id (VInt p) sort_by st
  = (Ok (take 20 (drop (Z.to_nat ((p - 1) * 20))
                    (TokenManager.wallet_tokens (redis st) wallet_id))), st).
Proof.
  intros Hraw Hzero Hp. rewrite get_tokens_run.
  rewrite sort_tokens_undecoded by done. by rewrite slice_page.
Qed.

End GetTokensProps.

Lemma get_tokens_store_order_witness :
  TokenManager.get_tokens (R := Demo.runtime) (W := Demo.app_world)
    "42" (VInt 1) "value" Demo.holdings
  = (Ok (take 20 (drop (Z.to_nat ((1 - 1) * 20))
                    (TokenManager.wallet_tokens (W := Demo.app_world)
                       (redis Demo.holdings) "42"))), Demo.holdings).
Proof.
  apply (get_tokens_store_order (R := Demo.runtime) (W := Demo.app_world)
           "42" 1 "value" Demo.holdings);
    [reflexivity|reflexivity|lia].
Defined.

(** The wallet of user 42 holds values 9, 5 and 17 in the order of the
    store, and sorted by value it is listed in that order. *)
Lemma holdings_listed_unsorted :
  (TokenManager.get_tokens (R := Demo.runtime) (W := Demo.app_world)
     "42" (VInt 1) "value" Demo.holdings).1
  = Ok [Demo.token "CCC" "9" "2023-12-24"; Demo.token "AAA" "5" "2024-01-02";
        Demo.token "BBB" "17" "2024-03-01"].
Proof. vm_compute. reflexivity. Qed.

(** ** SolanaTelegramBot.handle_callback *)

Section HandleCallbackProps.
Context `{L : FernetLib} `{R : PyRuntime} `{W : World}.
Implicit Types (self : SolanaTelegramBot.t) (upd : Update) (ctx : CallbackContext).

(** [list_tokens_command] never reads the callback data of its update. *)
Lemma list_tokens_command_as_command self upd ctx :
  SolanaTelegramBot.list_tokens_command self (as_command upd) ctx
  = SolanaTelegramBot.list_tokens_command self upd ctx.
Proof. reflexivity. Qed.

(** What [handle_callback] does on data whose first field is [list]. *)
Lemma handle_callback_list self upd ctx st data rest :
  callback_query upd = Some data →
  str_split "_" data = "list" :: rest →
  SolanaTelegramBot.handle_callback self upd ctx st =
  match rest with
  | page :: sort_by :: _ =>
      match int_of_str page with
      | Some _ => SolanaTelegramBot.list_tokens_command self upd ctx st
      | None => (Raise ValueError, st)
      end
  | [page] =>
      match int_of_str page with
      | Some _ => (Raise IndexError, st)
      | None => (Raise ValueError, st)
      end
  | [] => (Raise IndexError, st)
  end.
Proof.
  intros Hq Hsplit. unfold SolanaTelegramBot.handle_callback.
  rewrite Hq, Hsplit. unfold mbind, M_bind, lift. cbn.
  destruct rest as [|page [|sort_by rest]]; [done|..];
    cbn; by destruct (int_of_str page).
Qed.

(** C10.  On callback data whose first field is [list], [handle_callback]
    parses a page and a sort key out of the data and passes neither on:
    unless the parsing itself fails, what it does is what
    [list_tokens_command] does on the same update without the callback
    data, which takes page and sort key from [context.args].  Whatever
    page and sort key the pressed button names, the listing is the same. *)
Theorem handle_callback_ignores_page_and_sort self upd ctx st data rest :
  callback_query upd = Some data →
  str_split "_" data = "list" :: rest →
  SolanaTelegramBot.handle_callback self upd ctx st
  ∈ [ SolanaTelegramBot.list_tokens_command self (as_command upd) ctx st;
      (Raise IndexError, st); (Raise ValueError, st) ]
  ∧ ∀ page sort_by rest' p,
      rest = page :: sort_by :: rest' → int_of_str page = Some p →
      SolanaTelegramBot.handle_callback self upd ctx st
      = SolanaTelegramBot.list_tokens_command self (as_command upd) ctx st.
Proof.
  intros Hq Hsplit.
  rewrite (handle_callback_list self upd ctx st data rest Hq Hsplit).
  rewrite list_tokens_command_as_command. split.
  - destruct rest as [|page [|sort_by rest]]; [set_solver|..];
      destruct (int_of_str page); set_solver.
  - intros page sort_by rest' p -> Hint. by rewrite Hint.
Qed.

End HandleCallbackProps.

Lemma handle_callback_ignores_page_and_sort_witness :
  SolanaTelegramBot.handle_callback (R := Demo.runtime)
    (W := Demo.world Demo.acceptance) Demo.bot (Demo.pressed "list_2_date")
    Demo.no_args Demo.holdings
  ∈ [ SolanaTelegramBot.list_tokens_command (R := Demo.runtime)
        (W := Demo.world Demo.acceptance) Demo.bot
        (as_command (Demo.pressed "list_2_date")) Demo.no_args Demo.holdings;
      (Raise IndexError, Demo.holdings); (Raise ValueError, Demo.holdings) ]
  ∧ ∀ page sort_by rest' p,
      ["2"; "date"] = page :: sort_by :: rest' →
      int_of_str (PyRuntime := Demo.runtime) page = Some p →
      SolanaTelegramBot.handle_callback (R := Demo.runtime)
        (W := Demo.world Demo.acceptance) Demo.bot (Demo.pressed "list_2_date")
        Demo.no_args Demo.holdings
      = SolanaTelegramBot.list_tokens_command (R := Demo.runtime)
          (W := Demo.world Demo.acceptance) Demo.bot
          (as_command (Demo.pressed "list_2_date")) Demo.no_args Demo.holdings.
Proof.
  apply (handle_callback_ignores_page_and_sort (R := Demo.runtime)
           (W := Demo.world Demo.acceptance) Demo.bot
           (Demo.pressed "list_2_date") Demo.no_args Demo.holdings
           "list_2_date" ["2"; "date"]);
    reflexivity.
Defined.

(** * Further properties of the code *)

(** ** SecurityManager *)

Section SecurityManagerMore.
Context `{L : FernetLib} (HL : FernetContract L).

(** X1.  [encrypt_private_key] always returns: the [.decode()] of a
    Fernet token cannot fail, and the string it gives is plain ASCII. *)
Theorem encrypt_private_key_returns_ascii (sm : SecurityManager.t) (n : nonce)
    (k : list byte) :
  ∃ c, SecurityManager.encrypt_private_key sm n k = Ok c
       ∧ forallb is_ascii (encode c) = true.
Proof.
  eexists. split; [by apply encrypt_private_key_token|].
  unfold encode. rewrite String.list_byte_of_string_of_list_byte.
  apply (fernet_token_ascii L HL).
Qed.

(** X2.  A stored ciphertext determines the key: if two encryptions under
    one manager give the same string, whatever IVs and times they drew,
    they encrypted the same secret key. *)
Theorem encrypt_private_key_injective (sm : SecurityManager.t) (n n' : nonce)
    (k k' : list byte) (c : string) :
  SecurityManager.encrypt_private_key sm n k = Ok c →
  SecurityManager.encrypt_private_key sm n' k' = Ok c →
  k = k'.
Proof.
  rewrite !encrypt_private_key_token by done. intros [= <-] [= Hc].
  pose proof (decrypt_private_key_token HL sm n k) as Hk.
  pose proof (decrypt_private_key_token HL sm n' k') as Hk'.
  rewrite Hc in Hk'. congruence.
Qed.

End SecurityManagerMore.

Lemma encrypt_private_key_returns_ascii_witness :
  ∃ c, SecurityManager.encrypt_private_key Demo.manager Demo.fresh_nonce
         (secret_key Demo.wallet) = Ok c
       ∧ forallb is_ascii (encode c) = true.
Proof.
  exact (encrypt_private_key_returns_ascii demo_fernet_contract Demo.manager
           Demo.fresh_nonce (secret_key Demo.wallet)).
Defined.

Lemma encrypt_private_key_injective_witness :
  secret_key Demo.wallet = secret_key Demo.wallet.
Proof.
  apply (encrypt_private_key_injective demo_fernet_contract Demo.manager
           Demo.fresh_nonce {| iv := []; now := 7 |}
           (secret_key Demo.wallet) (secret_key Demo.wallet) "CGEFCFBGEFDG");
    reflexivity.
Defined.

(** ** TokenManager.add_token *)

Section AddTokenProps.
Implicit Types (d : gmap string string) (st : state).

Lemma add_token_run (wallet_id token_address : string) d st :
  TokenManager.add_token wallet_id token_address d st =
  if decide (d = ∅) then (Raise DataError, st)
  else (Ok (),
        {| redis := <["tokens:" +:+ wallet_id +:+ ":" +:+ token_address :=
                        d ∪ default ∅ (redis st !! ("tokens:" +:+ wallet_id +:+ ":"
                                                      +:+ token_address))]>
                      (redis st);
           trace := trace st |}).
Proof.
  unfold TokenManager.add_token, mbind, M_bind, read_redis, write_redis, raise.
  cbn. by destruct (decide (d = ∅)).
Qed.

(** X3.  After [add_token] with a non-empty [token_data], the hash under
    [tokens:<wallet>:<address>] has every field of [token_data] with its
    new value and every other field as before; all other keys and the
    trace are as before. *)
Theorem add_token_stores (wallet_id token_address : string) d st :
  d ≠ ∅ →
  let key := "tokens:" +:+ wallet_id +:+ ":" +:+ token_address in
  let st' := (TokenManager.add_token wallet_id token_address d st).2 in
  (TokenManager.add_token wallet_id token_address d st).1 = Ok ()
  ∧ trace st' = trace st
  ∧ (∀ field v, d !! field = Some v →
       redis st' !! key ≫= (.!! field) = Some v)
  ∧ (∀ field, d !! field = None →
       redis st' !! key ≫= (.!! field) = redis st !! key ≫= (.!! field))
  ∧ (∀ key', key' ≠ key → redis st' !! key' = redis st !! key').
Proof.
  intros Hd key st'. subst st'. rewrite add_token_run.
  destruct (decide (d = ∅)); [done|]. cbn. fold key.
  split; [done|]. split; [done|]. split; [|split].
  - intros field v Hf. rewrite lookup_insert_eq. cbn.
    by apply lookup_union_Some_l.
  - intros field Hf. rewrite lookup_insert_eq. cbn.
    rewrite lookup_union_r by done. by destruct (redis st !! key).
  - intros key' Hne. by rewrite lookup_insert_ne.
Qed.

(** X4.  [add_token] is idempotent: storing the same data a second time
    leaves the state that the first call left. *)
Theorem add_token_twice (wallet_id token_address : string) d st :
  (TokenManager.add_token wallet_id token_address d
     (TokenManager.add_token wallet_id token_address d st).2).2
  = (TokenManager.add_token wallet_id token_address d st).2.
Proof.
  rewrite !add_token_run. destruct (decide (d = ∅)); [done|]. cbn.
  rewrite lookup_insert_eq. cbn. rewrite insert_insert_eq.
  by rewrite (assoc_L (∪)), (idemp_L (∪)).
Qed.

End AddTokenProps.

Lemma add_token_stores_witness :
  let key := "tokens:" +:+ "42" +:+ ":" +:+ "DDD" in
  let st' := (TokenManager.add_token "42" "DDD"
                (Demo.token "DDD" "3" "2024-05-05") Demo.holdings).2 in
  (TokenManager.add_token "42" "DDD"
     (Demo.token "DDD" "3" "2024-05-05") Demo.holdings).1 = Ok ()
  ∧ trace st' = trace Demo.holdings
  ∧ (∀ field v, Demo.token "DDD" "3" "2024-05-05" !! field = Some v →
       redis st' !! key ≫= (.!! field) = Some v)
  ∧ (∀ field, Demo.token "DDD" "3" "2024-05-05" !! field = None →
       redis st' !! key ≫= (.!! field)
       = redis Demo.holdings !! key ≫= (.!! field))
  ∧ (∀ key', key' ≠ key → redis st' !! key' = redis Demo.holdings !! key').
Proof.
  apply (add_token_stores "42" "DDD" (Demo.token "DDD" "3" "2024-05-05")
           Demo.holdings).
  intros H. apply (f_equal (λ m : gmap string string, m !! "symbol")) in H.
  vm_compute in H. discriminate H.
Defined.

Lemma append_cons (c : ascii) (s t : string) :
  String c s +:+ t = String c (s +:+ t).
Proof. reflexivity. Qed.

Lemma append_inj_l (p s t : string) : p +:+ s = p +:+ t → s = t.
Proof.
  induction p as [|c p IH]; [done|].
  rewrite !append_cons. intros [= H]. auto.
Qed.

Lemma colon_separated_inj (w w' a a' : string) :
  ":"%char ∉ chars w → ":"%char ∉ chars w' →
  w +:+ ":" +:+ a = w' +:+ ":" +:+ a' → w = w' ∧ a = a'.
Proof.
  revert w'. induction w as [|c w IH]; intros [|c' w'];
    rewrite ?append_cons; change ("" +:+ ?s) with s; rewrite ?append_cons;
    change ("" +:+ ?s) with s; cbn [chars String.list_ascii_of_string];
    intros Hw Hw' Heq.
  - by injection Heq as ->.
  - injection Heq as <- _. exfalso. apply Hw'. apply list_elem_of_here.
  - injection Heq as -> _. exfalso. apply Hw. apply list_elem_of_here.
  - injection Heq as -> Heq.
    destruct (IH w') as [-> ->]; [| |done|done].
    + intros Hin. apply Hw. by apply list_elem_of_further.
    + intros Hin. apply Hw'. by apply list_elem_of_further.
Qed.

(** X5.  Tokens of different wallets, or different tokens of one wallet,
    never share a Redis key, as long as wallet ids contain no colon. *)
Theorem token_key_injective (wallet_id wallet_id' address address' : string) :
  ":"%char ∉ chars wallet_id → ":"%char ∉ chars wallet_id' →
  "tokens:" +:+ wallet_id +:+ ":" +:+ address
  = "tokens:" +:+ wallet_id' +:+ ":" +:+ address' →
  wallet_id = wallet_id' ∧ address = address'.
Proof.
  intros Hw Hw' Heq%append_inj_l. by apply colon_separated_inj.
Qed.

Lemma token_key_injective_witness :
  "42" = "42" ∧ "AAA" = "AAA".
Proof.
  apply (token_key_injective "42" "42" "AAA" "AAA"); [| |reflexivity];
    unfold chars; cbn [String.list_ascii_of_string]; intros H;
    repeat (apply elem_of_cons in H as [H|H]; [discriminate H|]);
    by apply not_elem_of_nil in H.
Defined.

(** ** TokenManager.get_tokens, beyond the first pages *)

Lemma slice_window_length {A} (l : list A) (start : Z) :
  (length (slice l start (start + 20)) ≤ 20)%nat.
Proof.
  unfold slice, slice_bound. rewrite length_take.
  destruct (Z.ltb_spec start 0), (Z.ltb_spec (start + 20) 0); lia.
Qed.

Lemma slice_subseteq {A} (l : list A) (start stop : Z) (x : A) :
  x ∈ slice l start stop → x ∈ l.
Proof.
  unfold slice. intros Hx.
  by apply subseteq_take, subseteq_drop in Hx.
Qed.

Section GetTokensMore.
Context `{R : PyRuntime} `{W : World}.
Implicit Types (tokens sorted : list (gmap string string)).

Lemma sort_tokens_perm (sort_by : string) tokens sorted :
  TokenManager.sort_tokens sort_by tokens = Ok sorted → sorted ≡ₚ tokens.
Proof.
  unfold TokenManager.sort_tokens.
  destruct (String.eqb sort_by "value").
  - destruct (mapM TokenManager.value_key tokens) as [keys|] eqn:Hkeys; [|done].
    cbn. intros [= <-].
    apply mapM_result_Forall2, Forall2_length in Hkeys.
    rewrite sort_reverse_perm. by rewrite snd_zip by lia.
  - destruct (String.eqb sort_by "date"); intros [= <-]; [|done].
    rewrite sort_reverse_perm. rewrite snd_zip; [done|].
    by rewrite length_fmap.
Qed.

Lemma get_tokens_state (wallet_id : string) (page : pyval) (sort_by : string)
    (st : state) :
  (TokenManager.get_tokens wallet_id page sort_by st).2 = st.
Proof.
  destruct page as [p|s]; [|done]. rewrite get_tokens_run.
  by destruct (TokenManager.sort_tokens _ _).
Qed.

(** X6.  [get_tokens] only reads: whatever the page and the sort key, and
    also when it raises, the state is as before; and what it returns is
    at most 20 tokens, each of them a token of the wallet. *)
Theorem get_tokens_reads_only (wallet_id : string) (page : pyval)
    (sort_by : string) (st : state) :
  (TokenManager.get_tokens wallet_id page sort_by st).2 = st
  ∧ ∀ l, (TokenManager.get_tokens wallet_id page sort_by st).1 = Ok l →
         (length l ≤ 20)%nat
         ∧ ∀ x, x ∈ l → x ∈ TokenManager.wallet_tokens (redis st) wallet_id.
Proof.
  split; [apply get_tokens_state|].
  destruct page as [p|s]; [|done]. rewrite get_tokens_run.
  destruct (TokenManager.sort_tokens _ _) as [sorted|] eqn:Hsort; [|done].
  cbn. intros l [= <-]. split; [apply slice_window_length|].
  intros x Hx%slice_subseteq. by rewrite <- (sort_tokens_perm _ _ _ Hsort).
Qed.

(** X8.  With any sort key but ['value'], [get_tokens] on an [int] page
    never raises. *)
Theorem get_tokens_returns (wallet_id : string) (p : Z) (sort_by : string)
    (st : state) :
  sort_by ≠ "value" →
  ∃ l, TokenManager.get_tokens wallet_id (VInt p) sort_by st = (Ok l, st).
Proof.
  intros Hv. rewrite get_tokens_run. unfold TokenManager.sort_tokens.
  apply String.eqb_neq in Hv. rewrite Hv.
  destruct (String.eqb sort_by "date"); by eexists.
Qed.

(** X9.  Pages outside the list are empty: page 0, and every page that
    starts at or after the end of the wallet's tokens. *)
Theorem get_tokens_out_of_range (wallet_id : string) (p : Z) (sort_by : string)
    (st : state) (l : list (gmap string string)) :
  p = 0 ∨ Z.of_nat (length (TokenManager.wallet_tokens (redis st) wallet_id))
          ≤ (p - 1) * 20 →
  (TokenManager.get_tokens wallet_id (VInt p) sort_by st).1 = Ok l →
  l = [].
Proof.
  intros Hp. rewrite get_tokens_run.
  destruct (TokenManager.sort_tokens _ _) as [sorted|] eqn:Hsort; [|done].
  cbn. intros [= <-].
  apply sort_tokens_perm, Permutation_length in Hsort.
  unfold slice, slice_bound.
  match goal with |- take ?n _ = _ => replace n with 0%nat; [apply take_0|] end.
  destruct (Z.ltb_spec ((p - 1) * 20) 0), (Z.ltb_spec ((p - 1) * 20 + 20) 0);
    lia.
Qed.

End GetTokensMore.

Lemma get_tokens_returns_witness :
  ∃ l, TokenManager.get_tokens (R := Demo.runtime) (W := Demo.world Demo.acceptance)
         "42" (VInt 1) "date" Demo.unpriced = (Ok l, Demo.unpriced).
Proof.
  apply (get_tokens_returns (R := Demo.runtime) (W := Demo.world Demo.acceptance)
           "42" 1 "date" Demo.unpriced).
  discriminate.
Defined.

Lemma get_tokens_out_of_range_witness :
  (TokenManager.get_tokens (R := Demo.runtime) (W := Demo.world Demo.acceptance)
     "42" (VInt 2) "value" Demo.holdings).1 = Ok [].
Proof.
  assert (∃ l, (TokenManager.get_tokens (R := Demo.runtime)
                  (W := Demo.world Demo.acceptance)
                  "42" (VInt 2) "value" Demo.holdings).1 = Ok l)
    as [l Hl] by (eexists; vm_compute; reflexivity).
  rewrite Hl. f_equal.
  apply (get_tokens_out_of_range (R := Demo.runtime)
           (W := Demo.world Demo.acceptance) "42" 2 "value" Demo.holdings l);
    [|exact Hl].
  right. vm_compute. discriminate.
Defined.

(** ** SolanaTelegramBot.list_tokens_command *)

Section ListTokensProps.
Context `{L : FernetLib} `{R : PyRuntime} `{W : World}.
Implicit Types (self : SolanaTelegramBot.t) (upd : Update) (ctx : CallbackContext).

Lemma reply_text_run upd (text : string)
    (markup : option (list (list InlineKeyboardButton))) (st : state) :
  SolanaTelegramBot.reply_text upd text markup st =
  if has_message upd then (Ok (), logged st [EvReply text markup])
  else (Raise (AttributeError "reply_text"), st).
Proof. unfold SolanaTelegramBot.reply_text. by destruct (has_message upd). Qed.

(** Every way [list_tokens_command] can go. *)
Lemma list_tokens_command_run self upd ctx st :
  SolanaTelegramBot.list_tokens_command self upd ctx st =
  match effective_user upd with
  | None => (Raise (AttributeError "id"), st)
  | Some id =>
    match SolanaTelegramBot.sort_arg ctx with
    | Raise e => (Raise e, st)
    | Ok sort_by =>
      match (TokenManager.get_tokens (pretty id)
               (SolanaTelegramBot.page_arg ctx) sort_by st).1 with
      | Raise e => (Raise e, st)
      | Ok [] => SolanaTelegramBot.reply_text upd "No tokens found." None st
      | Ok tokens =>
        match SolanaTelegramBot.build_message ("Your tokens:" +:+ nl +:+ nl) tokens with
        | Raise e => (Raise e, st)
        | Ok message =>
          match py_sub (SolanaTelegramBot.page_arg ctx) 1,
                py_add (SolanaTelegramBot.page_arg ctx) 1 with
          | Ok previous, Ok next =>
              SolanaTelegramBot.reply_text upd message
                (Some
                   [ [ {| text := "Previous";
                          callback_data := "list_" +:+ pretty previous +:+ "_" +:+ sort_by |};
                       {| text := "Next";
                          callback_data := "list_" +:+ pretty next +:+ "_" +:+ sort_by |} ];
                     [ {| text := "Sort by Value";
                          callback_data := "list_" +:+ py_str (SolanaTelegramBot.page_arg ctx)
                                             +:+ "_value" |};
                       {| text := "Sort by Date";
                          callback_data := "list_" +:+ py_str (SolanaTelegramBot.page_arg ctx)
                                             +:+ "_date" |} ] ]) st
          | Raise e, _ => (Raise e, st)
          | Ok _, Raise e => (Raise e, st)
          end
        end
      end
    end
  end.
Proof.
  unfold SolanaTelegramBot.list_tokens_command, SolanaTelegramBot.user_id,
    mbind, M_bind, mret, M_ret, lift, raise.
  destruct (effective_user upd) as [id|]; [|done].
  destruct (SolanaTelegramBot.sort_arg ctx) as [sort_by|]; [|done].
  pose proof (get_tokens_state (pretty id) (SolanaTelegramBot.page_arg ctx)
                sort_by st) as Hst.
  destruct (TokenManager.get_tokens _ _ _ st) as [[tokens|e] st'];
    cbn in Hst; subst st'; [|done].
  destruct tokens as [|token tokens]; [done|]. cbn [fst].
  destruct (SolanaTelegramBot.build_message _ _) as [message|]; [|done].
  cbn. destruct (py_sub _ 1) as [previous|]; [|done].
  by destruct (py_add _ 1) as [next|].
Qed.

(** X10.  [list_tokens_command] works only without arguments.  For a
    known user, any [context.args] other than the empty list -- a page, a
    page and a sort key, or no list at all -- ends in [TypeError]: nothing
    is sent and the state is untouched. *)
Theorem list_tokens_command_rejects_arguments self upd ctx st (id : Z) :
  effective_user upd = Some id →
  args ctx ≠ Some [] →
  SolanaTelegramBot.list_tokens_command self upd ctx st = (Raise TypeError, st).
Proof.
  intros Hid Hargs. rewrite list_tokens_command_run, Hid.
  unfold SolanaTelegramBot.sort_arg, SolanaTelegramBot.page_arg.
  destruct (args ctx) as [[|page rest]|]; [done| |done].
  destruct (bool_decide (1 < length (page :: rest))%nat) eqn:Hlen; [|done].
  apply bool_decide_eq_true in Hlen.
  destruct rest as [|sort_by rest]; [cbn in Hlen; lia|done].
Qed.

(** X11.  For a user whose wallet has no tokens, [/list] answers
    "No tokens found." with no keyboard, and does nothing else. *)
Theorem list_tokens_command_empty_wallet self upd st (id : Z) :
  effective_user upd = Some id →
  has_message upd = true →
  TokenManager.wallet_tokens (redis st) (pretty id) = [] →
  SolanaTelegramBot.list_tokens_command self upd {| args := Some [] |} st
  = (Ok (), logged st [EvReply "No tokens found." None]).
Proof.
  intros Hid Hmsg Hempty. rewrite list_tokens_command_run, Hid.
  unfold SolanaTelegramBot.sort_arg, SolanaTelegramBot.page_arg. cbn [args].
  rewrite bool_decide_eq_false_2 by (cbn; lia).
  rewrite get_tokens_run, Hempty. cbn. by rewrite reply_text_run, Hmsg.
Qed.

(** X12.  Whenever [list_tokens_command] succeeds it has sent exactly one
    message: either "No tokens found." or a listing under the keyboard
    of page 1 sorted by value.  No other page and no other sort order is
    ever shown. *)
Theorem list_tokens_command_replies self upd ctx st :
  (SolanaTelegramBot.list_tokens_command self upd ctx st).1 = Ok () →
  (SolanaTelegramBot.list_tokens_command self upd ctx st).2
  = logged st [EvReply "No tokens found." None]
  ∨ ∃ message,
      (SolanaTelegramBot.list_tokens_command self upd ctx st).2
      = logged st [EvReply message (Some first_page_keyboard)].
Proof.
  rewrite list_tokens_command_run.
  destruct (effective_user upd) as [id|]; [|done].
  unfold SolanaTelegramBot.sort_arg, SolanaTelegramBot.page_arg.
  destruct (args ctx) as [[|page rest]|]; [|..|done].
  - rewrite bool_decide_eq_false_2 by (cbn; lia).
    destruct (TokenManager.get_tokens (pretty id) (VInt 1) "value" st).1
      as [[|token tokens]|]; [..|done].
    + rewrite reply_text_run. destruct (has_message upd); [|done]. by left.
    + destruct (SolanaTelegramBot.build_message _ _) as [message|]; [|done].
      cbn [py_sub py_add]. rewrite reply_text_run.
      destruct (has_message upd); [|done].
      right. exists message. reflexivity.
  - destruct (if bool_decide _ then _ else _); done.
Qed.

Lemma token_lines_printable (token : gmap string string) (lines : string) :
  SolanaTelegramBot.token_lines token = Ok lines → printable token.
Proof.
  unfold SolanaTelegramBot.token_lines, getitem, printable.
  destruct (hash_get token "symbol"); [|done]. cbn.
  destruct (hash_get token "value") as [v|]; [|done]. cbn.
  destruct (float_of_str v) eqn:Hv; [|done]. cbn.
  destruct (hash_get token "purchase_date"); [|done]. cbn.
  intros _. split; [eauto|]. split; [|eauto].
  exists v. rewrite Hv. eauto.
Qed.

(** X13.  A listing can only be built from complete tokens: if
    [build_message] returns, every token has a symbol, a purchase date and
    a value that is a number.  A token stored without one of them makes
    the whole listing fail. *)
Theorem build_message_printable (header : string)
    (tokens : list (gmap string string)) (message : string) :
  SolanaTelegramBot.build_message header tokens = Ok message →
  Forall printable tokens.
Proof.
  revert header. induction tokens as [|token tokens IH]; intros header; [done|].
  cbn. destruct (SolanaTelegramBot.token_lines token) as [lines|] eqn:Hl; [|done].
  cbn. intros Hrest. constructor; eauto using token_lines_printable.
Qed.

(** X7.  With the client that [app.py] makes, a user who has tokens gets
    no listing: the hashes come with [bytes] keys, so [token['symbol']]
    fails on the first token, and [list_tokens_command] raises
    [KeyError] without sending anything. *)
Theorem list_tokens_command_key_error self upd st (id : Z) :
  decode_responses = false →
  effective_user upd = Some id →
  TokenManager.wallet_tokens (redis st) (pretty id) ≠ [] →
  SolanaTelegramBot.list_tokens_command self upd {| args := Some [] |} st
  = (Raise (KeyError "symbol"), st).
Proof.
  intros Hraw Hid Htokens. rewrite list_tokens_command_run, Hid.
  unfold SolanaTelegramBot.sort_arg, SolanaTelegramBot.page_arg. cbn [args].
  rewrite bool_decide_eq_false_2 by (cbn; lia).
  rewrite get_tokens_run.
  destruct (TokenManager.sort_tokens _ _) as [sorted|e] eqn:Hsort.
  - apply sort_tokens_perm in Hsort.
    destruct sorted as [|token sorted].
    { by apply Permutation_nil_l in Hsort. }
    cbn [fst]. rewrite slice_page by lia.
    change (Z.to_nat ((1 - 1) * 20)) with 0%nat. cbn [drop take].
    cbn [SolanaTelegramBot.build_message].
    unfold SolanaTelegramBot.token_lines, getitem, hash_get. by rewrite Hraw.
  - exfalso. revert Hsort. unfold TokenManager.sort_tokens. cbn.
    by rewrite mapM_value_key_undecoded.
Qed.

(** X14.  In every case -- success or any failure -- [start_command],
    [list_tokens_command] and [handle_callback] leave the store as it was. *)
Theorem handlers_leave_store self upd ctx st :
  redis (SolanaTelegramBot.start_command self upd ctx st).2 = redis st
  ∧ redis (SolanaTelegramBot.list_tokens_command self upd ctx st).2 = redis st
  ∧ redis (SolanaTelegramBot.handle_callback self upd ctx st).2 = redis st.
Proof.
  assert (redis (SolanaTelegramBot.list_tokens_command self upd ctx st).2
          = redis st) as Hlist.
  { rewrite list_tokens_command_run.
    destruct (effective_user upd); [|done].
    destruct (SolanaTelegramBot.sort_arg ctx); [|done].
    destruct (TokenManager.get_tokens _ _ _ st).1 as [[|token tokens]|];
      [..|done].
    - rewrite reply_text_run. by destruct (has_message upd).
    - destruct (SolanaTelegramBot.build_message _ _); [|done].
      destruct (py_sub _ 1); [|done]. destruct (py_add _ 1); [|done].
      rewrite reply_text_run. by destruct (has_message upd). }
  split; [|split; [done|]].
  - unfold SolanaTelegramBot.start_command. rewrite reply_text_run.
    by destruct (has_message upd).
  - unfold SolanaTelegramBot.handle_callback, mbind, M_bind, mret, M_ret, lift.
    destruct (callback_query upd) as [data|]; [|done].
    destruct (list_item (str_split "_" data) 0) as [head|]; [|done].
    destruct (String.eqb head "list"); [|done].
    destruct (list_item (str_split "_" data) 1) as [page|]; [|done]. cbn.
    destruct (int_of_str page); [|done]. cbn.
    by destruct (list_item (str_split "_" data) 2).
Qed.

End ListTokensProps.

Lemma list_tokens_command_rejects_arguments_witness :
  SolanaTelegramBot.list_tokens_command (R := Demo.runtime)
    (W := Demo.world Demo.acceptance) Demo.bot Demo.command
    {| args := Some ["2"; "date"] |} Demo.holdings
  = (Raise TypeError, Demo.holdings).
Proof.
  apply (list_tokens_command_rejects_arguments (R := Demo.runtime)
           (W := Demo.world Demo.acceptance) Demo.bot Demo.command
           {| args := Some ["2"; "date"] |} Demo.holdings 42);
    [reflexivity|discriminate].
Defined.

Lemma list_tokens_command_key_error_witness :
  SolanaTelegramBot.list_tokens_command (R := Demo.runtime) (W := Demo.app_world)
    Demo.bot Demo.command {| args := Some [] |} Demo.holdings
  = (Raise (KeyError "symbol"), Demo.holdings).
Proof.
  apply (list_tokens_command_key_error (R := Demo.runtime) (W := Demo.app_world)
           Demo.bot Demo.command Demo.holdings 42);
    [reflexivity|reflexivity|].
  vm_compute. discriminate.
Defined.

Lemma list_tokens_command_empty_wallet_witness :
  SolanaTelegramBot.list_tokens_command (R := Demo.runtime)
    (W := Demo.world Demo.acceptance) Demo.bot Demo.command
    {| args := Some [] |} Demo.empty_state
  = (Ok (), logged Demo.empty_state [EvReply "No tokens found." None]).
Proof.
  apply (list_tokens_command_empty_wallet (R := Demo.runtime)
           (W := Demo.world Demo.acceptance) Demo.bot Demo.command
           Demo.empty_state 42);
    reflexivity.
Defined.

Lemma list_tokens_command_replies_witness :
  (SolanaTelegramBot.list_tokens_command (R := Demo.runtime)
     (W := Demo.world Demo.acceptance) Demo.bot Demo.command Demo.no_args
     Demo.holdings).2
  = logged Demo.holdings [EvReply "No tokens found." None]
  ∨ ∃ message,
      (SolanaTelegramBot.list_tokens_command (R := Demo.runtime)
         (W := Demo.world Demo.acceptance) Demo.bot Demo.command Demo.no_args
         Demo.holdings).2
      = logged Demo.holdings [EvReply message (Some first_page_keyboard)].
Proof.
  apply (list_tokens_command_replies (R := Demo.runtime)
           (W := Demo.world Demo.acceptance) Demo.bot Demo.command Demo.no_args
           Demo.holdings).
  vm_compute. reflexivity.
Defined.

Lemma build_message_printable_witness :
  Forall (printable (R := Demo.runtime) (W := Demo.world Demo.acceptance))
    [Demo.token "AAA" "5" "2024-01-02"].
Proof.
  eapply (build_message_printable (R := Demo.runtime)
            (W := Demo.world Demo.acceptance) "Your tokens:"
            [Demo.token "AAA" "5" "2024-01-02"]).
  vm_compute. reflexivity.
Defined.

(** ** [str.split] and SolanaTelegramBot.handle_callback *)

Lemma split_acc_nonempty (sep : ascii) (cur s : string) :
  split_acc sep cur s ≠ [].
Proof.
  revert cur. induction s as [|c s IH]; intros cur; cbn; [done|].
  destruct (Ascii.eqb c sep); [done|apply IH].
Qed.

Lemma append_nil_r (s : string) : s +:+ "" = s.
Proof. induction s as [|c s IH]; [done|]. by rewrite append_cons, IH. Qed.

Lemma rev_app_append (a b t : string) :
  String.rev_app a b +:+ t = String.rev_app a (b +:+ t).
Proof.
  revert b. induction a as [|c a IH]; intros b; [done|].
  cbn [String.rev_app]. by rewrite IH, append_cons.
Qed.

Lemma rev_cons_append (c : ascii) (cur s : string) :
  String.rev (String c cur) +:+ s = String.rev cur +:+ String c s.
Proof. unfold String.rev. cbn [String.rev_app]. by rewrite !rev_app_append. Qed.

Lemma split_acc_concat (sep : ascii) (cur s : string) :
  String.concat (String sep "") (split_acc sep cur s) = String.rev cur +:+ s.
Proof.
  revert cur. induction s as [|c s IH]; intros cur.
  - cbn. by rewrite append_nil_r.
  - cbn [split_acc]. destruct (Ascii.eqb_spec c sep) as [->|Hne].
    + pose proof (split_acc_nonempty sep "" s) as Hnonempty.
      specialize (IH "").
      destruct (split_acc sep "" s) as [|field fields]; [done|].
      cbn [String.concat]. cbn [String.concat] in IH. by rewrite IH.
    + rewrite IH. apply rev_cons_append.
Qed.

Lemma chars_rev_app (sep : ascii) (a b : string) :
  sep ∉ chars a → sep ∉ chars b → sep ∉ chars (String.rev_app a b).
Proof.
  revert b. induction a as [|c a IH]; intros b Ha Hb; [done|].
  cbn [String.rev_app]. cbn in Ha. apply not_elem_of_cons in Ha as [Hc Ha].
  apply IH; [done|]. cbn. by apply not_elem_of_cons.
Qed.

Lemma split_acc_fields (sep : ascii) (cur s : string) :
  sep ∉ chars cur →
  Forall (λ field, sep ∉ chars field) (split_acc sep cur s).
Proof.
  assert (∀ cur, sep ∉ chars cur → sep ∉ chars (String.rev cur)) as Hrev.
  { intros cur' Hcur. apply chars_rev_app; [done|apply not_elem_of_nil]. }
  revert cur. induction s as [|c s IH]; intros cur Hcur.
  - cbn. constructor; auto.
  - cbn [split_acc]. destruct (Ascii.eqb_spec c sep) as [->|Hne].
    + constructor; [auto|]. apply IH, not_elem_of_nil.
    + apply IH. cbn. apply not_elem_of_cons. split; [done|exact Hcur].
Qed.

(** X15.  [data.split('_')] loses nothing: the fields joined by ['_']
    are the callback data again, there is always a first field, and no
    field contains ['_']. *)
Theorem str_split_join (data : string) :
  String.concat "_" (str_split "_" data) = data
  ∧ str_split "_" data ≠ []
  ∧ Forall (λ field, "_"%char ∉ chars field) (str_split "_" data).
Proof.
  unfold str_split. split; [|split].
  - apply (split_acc_concat "_" "" data).
  - apply split_acc_nonempty.
  - apply split_acc_fields. apply not_elem_of_nil.
Qed.

Section HandleCallbackMore.
Context `{L : FernetLib} `{R : PyRuntime} `{W : World}.
Implicit Types (self : SolanaTelegramBot.t) (upd : Update) (ctx : CallbackContext).

(** X16.  A callback whose first field is not [list] is ignored:
    [handle_callback] returns without sending or changing anything. *)
Theorem handle_callback_ignores_other_data self upd ctx st (data : string) :
  callback_query upd = Some data →
  (∀ rest, str_split "_" data ≠ "list" :: rest) →
  SolanaTelegramBot.handle_callback self upd ctx st = (Ok (), st).
Proof.
  intros Hq Hother. unfold SolanaTelegramBot.handle_callback. rewrite Hq.
  pose proof (split_acc_nonempty "_" "" data) as Hnonempty.
  fold (str_split "_" data) in Hnonempty.
  destruct (str_split "_" data) as [|head rest]; [done|].
  unfold mbind, M_bind, lift. cbn.
  destruct (String.eqb_spec head "list") as [->|Hne]; [|done].
  by destruct (Hother rest).
Qed.

End HandleCallbackMore.

Lemma handle_callback_ignores_other_data_witness :
  SolanaTelegramBot.handle_callback (R := Demo.runtime)
    (W := Demo.world Demo.acceptance) Demo.bot (Demo.pressed "listing_2_date")
    Demo.no_args Demo.holdings
  = (Ok (), Demo.holdings).
Proof.
  apply (handle_callback_ignores_other_data (R := Demo.runtime)
           (W := Demo.world Demo.acceptance) Demo.bot
           (Demo.pressed "listing_2_date") Demo.no_args Demo.holdings
           "listing_2_date");
    [reflexivity|].
  intros rest. vm_compute. discriminate.
Defined.

(** ** The sort is stable *)

Section SortStable.
Context {K A : Type} (lt : K → K → bool) (P : K → Prop) `{!∀ k, Decision (P k)}.
Implicit Types (x : K * A) (l : list (K * A)).

Lemma insert_desc_filter x l :
  (∀ a b, P a → P b → lt a b = false) →
  filter (λ p, P p.1) (insert_desc lt x l) = filter (λ p, P p.1) (x :: l).
Proof.
  intros Hclass. induction l as [|y l IH]; [done|].
  cbn [insert_desc]. destruct (lt x.1 y.1) eqn:Hxy; [|done].
  rewrite (filter_cons _ y), IH, !(filter_cons _ x), (filter_cons _ y).
  destruct (decide (P y.1)) as [Hy|], (decide (P x.1)) as [Hx|]; try done.
  rewrite (Hclass _ _ Hx Hy) in Hxy. discriminate Hxy.
Qed.

Lemma sort_reverse_filter l :
  (∀ a b, P a → P b → lt a b = false) →
  filter (λ p, P p.1) (sort_reverse lt l) = filter (λ p, P p.1) l.
Proof.
  intros Hclass. induction l as [|x l IH]; [done|].
  cbn. fold (sort_reverse lt l).
  by rewrite insert_desc_filter, !(filter_cons _ x), IH.
Qed.

Lemma filter_snd_keys (key : A → K) (ps : list (K * A)) :
  Forall (λ p, key p.2 = p.1) ps →
  filter (λ t, P (key t)) ps.*2 = (filter (λ p, P p.1) ps).*2.
Proof.
  induction 1 as [|[k t] ps Hk _ IH]; [done|]. cbn in Hk.
  rewrite fmap_cons, !filter_cons. cbn. rewrite Hk, IH.
  by destruct (decide (P k)).
Qed.

End SortStable.

Section SortTokensStable.
Context `{R : PyRuntime} `{W : World}.

(** X17.  Sorting by date is stable: tokens with the same purchase date
    come out in the order the store gave them. *)
Theorem sort_tokens_date_stable (tokens : list (gmap string string)) (date : string) :
  ∃ sorted,
    TokenManager.sort_tokens "date" tokens = Ok sorted
    ∧ filter (λ token, TokenManager.date_key token = date) sorted
      = filter (λ token, TokenManager.date_key token = date) tokens.
Proof.
  unfold TokenManager.sort_tokens. cbn. eexists. split; [done|].
  set (ps := zip (TokenManager.date_key <$> tokens) tokens).
  assert (Forall (λ p, TokenManager.date_key p.2 = p.1) ps) as Hps.
  { apply Forall_forall. intros [k x] Hin.
    apply list_elem_of_lookup in Hin as [i Hi].
    apply lookup_zip_Some in Hi as [Hk Hx]. cbn in *.
    rewrite list_lookup_fmap, Hx in Hk. by injection Hk. }
  assert (ps.*2 = tokens) as Htokens.
  { apply snd_zip. by rewrite length_fmap. }
  etrans.
  { apply (@filter_snd_keys _ _ (λ k, k = date) (λ k, decide_rel (=) k date)
             TokenManager.date_key).
    by rewrite sort_reverse_perm. }
  rewrite (@sort_reverse_filter _ _ String.ltb (λ k, k = date)
             (λ k, decide_rel (=) k date)).
  2:{ intros a b -> ->. unfold String.ltb.
      pose proof (String.compare_antisym date date) as Hrefl.
      by destruct (String.compare date date). }
  etrans.
  { symmetry.
    by apply (@filter_snd_keys _ _ (λ k, k = date) (λ k, decide_rel (=) k date)
                TokenManager.date_key). }
  by rewrite Htokens.
Qed.

End SortTokensStable.

(** ** TradingManager: what is sent, and when *)

(** A trace extended by events none of which is a broadcast holds no new
    broadcast. *)
Ltac no_broadcast :=
  let Hin := fresh "Hin" in
  rewrite elem_of_app; intros [?|Hin]; [by left|];
  repeat (apply elem_of_cons in Hin as [Hin|Hin]; [discriminate Hin|]);
  by apply not_elem_of_nil in Hin.

Section TradingMore.
Context `{R : PyRuntime} `{W : World}.
Implicit Types (self : TradingManager.t) (q : json) (k : Keypair) (st : state).

(** X18.  A trade returns a transaction id exactly when every stage
    succeeded; the id is the chain's answer to the signed bytes, and the
    trade has then made one POST, one signature and one broadcast, in
    that order. *)
Theorem execute_trade_success self q k st (txid : string) (st' : state) :
  TradingManager.execute_trade self q k false st = (Ok txid, st')
  ↔ ∃ tx signed signed_raw,
      built_transaction (TradingManager.jupiter_api self +:+ "/swap") q = Ok tx
      ∧ sign_transaction k tx = Ok signed
      ∧ serialize signed = Ok signed_raw
      ∧ send_raw_transaction signed_raw = Ok txid
      ∧ st' = logged st [EvPost (TradingManager.jupiter_api self +:+ "/swap") q;
                         EvSign k tx; EvSendRaw signed_raw].
Proof.
  rewrite execute_trade_stages. unfold built_transaction. cbv zeta.
  destruct (http_post _ q) as [swap_tx|]; cbn.
  2:{ split; [done|]. by intros (? & ? & ? & ? & _). }
  destruct (subscript swap_tx _) as [encoded|]; cbn.
  2:{ split; [done|]. by intros (? & ? & ? & ? & _). }
  destruct (b64decode encoded) as [raw|]; cbn.
  2:{ split; [done|]. by intros (? & ? & ? & ? & _). }
  destruct (deserialize raw) as [tx|]; cbn.
  2:{ split; [done|]. by intros (? & ? & ? & ? & _). }
  destruct (sign_transaction k tx) as [signed|] eqn:Hsign.
  2:{ split; [done|]. intros (? & ? & ? & [= <-] & ? & _). congruence. }
  destruct (serialize signed) as [signed_raw|] eqn:Hser.
  2:{ split; [done|]. intros (? & ? & ? & [= <-] & ? & ? & _). congruence. }
  split.
  - intros [= Hsend <-]. by exists tx, signed, signed_raw.
  - intros (? & ? & ? & [= <-] & ? & ? & ? & ->).
    repeat f_equal; congruence.
Qed.

(** X19.  Nothing is broadcast but what the wallet signed: every
    [send_raw_transaction] that [execute_trade] adds to the trace carries
    the serialised signature of the transaction the aggregator returned
    for this quote.  A trade that fails before that point sends nothing. *)
Theorem execute_trade_sends_signed_bytes self q k (anti_mev : bool) st
    (raw : list byte) :
  EvSendRaw raw ∈ trace (TradingManager.execute_trade self q k anti_mev st).2 →
  EvSendRaw raw ∈ trace st
  ∨ ∃ tx signed,
      built_transaction (TradingManager.jupiter_api self +:+ "/swap") q = Ok tx
      ∧ sign_transaction k tx = Ok signed
      ∧ serialize signed = Ok raw.
Proof.
  destruct anti_mev; [by left|].
  rewrite execute_trade_stages. unfold built_transaction. cbv zeta.
  destruct (http_post _ q) as [swap_tx|]; cbn; [|no_broadcast].
  destruct (subscript swap_tx _) as [encoded|]; cbn; [|no_broadcast].
  destruct (b64decode encoded) as [raw'|]; cbn; [|no_broadcast].
  destruct (deserialize raw') as [tx|]; cbn; [|no_broadcast].
  destruct (sign_transaction k tx) as [signed|] eqn:Hsign; cbn; [|no_broadcast].
  destruct (serialize signed) as [signed_raw|] eqn:Hser; cbn; [|no_broadcast].
  rewrite elem_of_app. intros [?|Hin]; [by left|]. right.
  exists tx, signed.
  repeat (apply elem_of_cons in Hin as [Hin|Hin]; [try discriminate Hin|]).
  - by injection Hin as ->.
  - by apply not_elem_of_nil in Hin.
Qed.

(** X20.  Neither [get_quote] nor [execute_trade] touches the store, in
    any case and in either mode. *)
Theorem trading_leaves_store self (input_mint output_mint : string) (amount : Z)
    q k (anti_mev : bool) st :
  redis (TradingManager.get_quote self input_mint output_mint amount st).2 = redis st
  ∧ redis (TradingManager.execute_trade self q k anti_mev st).2 = redis st.
Proof.
  split.
  - unfold TradingManager.get_quote, mbind, M_bind, lift, emit. by cbn.
  - destruct anti_mev; [done|]. rewrite execute_trade_stages. cbv zeta.
    destruct (http_post _ q) as [swap_tx|]; [|done].
    destruct (subscript swap_tx _) as [encoded|]; [|done].
    destruct (b64decode encoded) as [raw|]; [|done].
    destruct (deserialize raw) as [tx|]; [|done].
    destruct (sign_transaction k tx) as [signed|]; [|done].
    by destruct (serialize signed).
Qed.

(** X21.  The quote goes through unchanged.  [get_quote] asks [/quote]
    for the two mints and the amount with a slippage of 50 basis points;
    when the aggregator answers [q], a trade on the result posts exactly
    [q] to [/swap]. *)
Theorem quote_passes_through self (input_mint output_mint : string) (amount : Z)
    k st q :
  let url := TradingManager.jupiter_api self +:+ "/quote" in
  let params : gmap string json :=
    {[ "inputMint" := JStr input_mint; "outputMint" := JStr output_mint;
       "amount" := JInt amount; "slippageBps" := JInt 50 ]} in
  http_get url params = Ok q →
  (quote ← TradingManager.get_quote self input_mint output_mint amount;
   TradingManager.execute_trade self quote k false) st
  = TradingManager.execute_trade self q k false (logged st [EvGet url params]).
Proof.
  intros url params Hget.
  unfold TradingManager.get_quote, mbind at 1, M_bind at 1.
  unfold mbind, M_bind, lift, emit. cbn. fold url. fold params.
  by rewrite Hget.
Qed.

End TradingMore.

Lemma execute_trade_sends_signed_bytes_witness :
  EvSendRaw (encode "bhtransferPK") ∈ trace Demo.empty_state
  ∨ ∃ tx signed,
      built_transaction (R := Demo.runtime) (W := Demo.world Demo.acceptance)
        (TradingManager.jupiter_api Demo.trader +:+ "/swap") Demo.quote = Ok tx
      ∧ sign_transaction (World := Demo.world Demo.acceptance) Demo.wallet tx
        = Ok signed
      ∧ serialize (World := Demo.world Demo.acceptance) signed
        = Ok (encode "bhtransferPK").
Proof.
  apply (execute_trade_sends_signed_bytes (R := Demo.runtime)
           (W := Demo.world Demo.acceptance) Demo.trader Demo.quote Demo.wallet
           false Demo.empty_state (encode "bhtransferPK")).
  vm_compute. apply list_elem_of_further, list_elem_of_further, list_elem_of_here.
Defined.

Lemma quote_passes_through_witness :
  (quote ← TradingManager.get_quote (W := Demo.world Demo.acceptance)
             Demo.trader "So11111111111111111111111111111111111111112"
             "EPjFWdd5AufqSSqeM2qN1xzybapC8G4wEGGkZwyTDt1v" 1000000;
   TradingManager.execute_trade (R := Demo.runtime)
     (W := Demo.world Demo.acceptance) Demo.trader quote Demo.wallet false)
    Demo.empty_state
  = TradingManager.execute_trade (R := Demo.runtime)
      (W := Demo.world Demo.acceptance) Demo.trader JNull Demo.wallet false
      (logged Demo.empty_state
         [EvGet (TradingManager.jupiter_api Demo.trader +:+ "/quote")
            {[ "inputMint" := JStr "So11111111111111111111111111111111111111112";
               "outputMint" := JStr "EPjFWdd5AufqSSqeM2qN1xzybapC8G4wEGGkZwyTDt1v";
               "amount" := JInt 1000000; "slippageBps" := JInt 50 ]}]).
Proof.
  apply (quote_passes_through (R := Demo.runtime)
           (W := Demo.world Demo.acceptance) Demo.trader
           "So11111111111111111111111111111111111111112"
           "EPjFWdd5AufqSSqeM2qN1xzybapC8G4wEGGkZwyTDt1v" 1000000
           Demo.wallet Demo.empty_state JNull).
  reflexivity.
Defined.

(** ** SolanaTelegramBot: construction and wallet creation *)

Section BotMore.
Context `{L : FernetLib} `{W : World}.

(** X22.  No bot is ever built.  [register_handlers] looks up
    [self.buy_command], which the class does not define, so [__init__]
    raises: [AttributeError] once the application exists, with only the
    [start] and [createwallet] handlers registered -- [list] and the
    callback handler never are. *)
Theorem init_never_returns (application : result ())
    (security_manager : SecurityManager.t) (trading_manager : TradingManager.t) :
  (∃ e, (SolanaTelegramBot.init application security_manager trading_manager).2
        = Raise e)
  ∧ SolanaTelegramBot.init (Ok ()) security_manager trading_manager
    = ([SolanaTelegramBot.CommandHandler "start" "start_command";
        SolanaTelegramBot.CommandHandler "createwallet" "create_wallet_command"],
       Raise (AttributeError "buy_command")).
Proof.
  split; [|reflexivity].
  destruct application as [[]|e]; eexists; reflexivity.
Qed.

(** X23.  With a Fernet that keeps its contract, [/createwallet] from a
    user in a chat always succeeds, and what it does depends on the public
    key alone: the secret key, the IV and the time of encryption leave no
    mark on the reply or the state. *)
Theorem create_wallet_command_shows_public_key_only (HL : FernetContract L)
    (self : SolanaTelegramBot.t) (kp : Keypair) (n : nonce) (upd : Update)
    (ctx : CallbackContext) (st : state) (id : Z) :
  effective_user upd = Some id →
  has_message upd = true →
  SolanaTelegramBot.create_wallet_command self kp n upd ctx st
  = (Ok (), logged st [EvReply (SolanaTelegramBot.wallet_created_text
                                  (pubkey_str (public_key kp))) None]).
Proof.
  intros Hid Hmsg. rewrite create_wallet_command_run.
  rewrite encrypt_private_key_token by done. by rewrite Hid, Hmsg.
Qed.

End BotMore.

Lemma create_wallet_command_shows_public_key_only_witness :
  SolanaTelegramBot.create_wallet_command (W := Demo.world Demo.acceptance)
    Demo.bot Demo.wallet Demo.fresh_nonce Demo.command Demo.no_args
    Demo.empty_state
  = (Ok (), logged Demo.empty_state
              [EvReply (SolanaTelegramBot.wallet_created_text
                          (pubkey_str (World := Demo.world Demo.acceptance)
                             (public_key Demo.wallet))) None]).
Proof.
  apply (create_wallet_command_shows_public_key_only
           (W := Demo.world Demo.acceptance) demo_fernet_contract Demo.bot
           Demo.wallet Demo.fresh_nonce Demo.command Demo.no_args
           Demo.empty_state 42);
    reflexivity.
Defined.
